(** * Computer-use agent: dispatcher and orchestration loop

    A shallow embedding of [tools/computer.py] (class [ComputerTool]) and of
    [agent.py] (class [ComputerUseAgent]), followed by the properties of the
    specification that can be settled on them.

    Conventions of the embedding.
    - Python [str] is [string]; the texts handled here (action names, key
      names, directions) are ASCII, so [len] is [String.length] and
      [str.lower] acts on the letters A-Z only.
    - Python [int] is [Z].  A [float] is only ever forwarded and formatted by
      this code, never computed with, so it is carried as its [repr] text.
    - Keyword parameters are modelled at the types the handlers declare:
      a parameter typed [Optional[T] = None] is an [arg T] (key absent, an
      explicit [None], or a value), a parameter with a plain default is an
      [option].  Every handler takes [**_], so further keys are never read.
    - [pyautogui], [subprocess], [PIL] and [time] form the device.  The
      device is an oracle consulted with the calls made so far; each call is
      appended to a trace, and a call either returns or raises.
    - An exception is a value of [exn]; code that may raise returns a
      [result].  The device raises subclasses of [Exception], which is what
      [execute] catches.
    - The confirmation callback and the model transport are oracles as
      well: the callback over the descriptions it was shown before, the
      transport over the number of the round and the messages sent.
    - Of what [run] prints, the bracketed status lines are kept; [run] is
      given, besides its return value, the place where it stopped and the
      number of requests it made. *)

From Stdlib Require Import ZArith String List Ascii Bool Lia DecimalString.
Import ListNotations.

Local Open Scope Z_scope.
Local Open Scope list_scope.
Local Open Scope string_scope.

(** ** Python string primitives *)

Module PyStr.

(** [str(n)] for an [int]. *)
Definition str_int (z : Z) : string := NilZero.string_of_int (Z.to_int z).

(** [len(s)] as an [int]. *)
Definition len (s : string) : Z := Z.of_nat (String.length s).

(** [s[:n]]. *)
Definition take (n : nat) (s : string) : string := substring 0 n s.

Definition is_upper (c : ascii) : bool :=
  let n := nat_of_ascii c in (Nat.leb 65 n && Nat.leb n 90)%bool.

Definition lower_char (c : ascii) : ascii :=
  if is_upper c then ascii_of_nat (nat_of_ascii c + 32) else c.

(** [s.lower()]. *)
Fixpoint lower (s : string) : string :=
  match s with
  | EmptyString => EmptyString
  | String c s' => String (lower_char c) (lower s')
  end.

(** [s.replace(old, new)] for a non-empty [old]: occurrences are found left
    to right and do not overlap.  [skip] counts the characters of a matched
    occurrence that are still to be dropped. *)
Fixpoint replace_from (old new : string) (skip : nat) (s : string) : string :=
  match s with
  | EmptyString => EmptyString
  | String c s' =>
      match skip with
      | S k => replace_from old new k s'
      | O =>
          if prefix old s
          then new ++ replace_from old new (String.length old - 1) s'
          else String c (replace_from old new 0 s')
      end
  end.

Definition replace (old new s : string) : string := replace_from old new 0 s.

(** [s.split(sep)] for a one-character separator; the result is never
    empty, and [''.split(sep) == ['']]. *)
Fixpoint split (sep : ascii) (s : string) : list string :=
  match s with
  | EmptyString => [EmptyString]
  | String c s' =>
      if Ascii.eqb c sep then EmptyString :: split sep s'
      else match split sep s' with
           | [] => [String c EmptyString]
           | h :: t => String c h :: t
           end
  end.


(** [sub in s]. *)
Fixpoint contains (sub s : string) : bool :=
  (prefix sub s ||
   match s with
   | EmptyString => false
   | String _ s' => contains sub s'
   end)%bool.

End PyStr.

(** ** Exceptions and results *)

Inductive exn : Type :=
| StopIteration
| ValueError (msg : string)
| TypeError (msg : string)
| IndexError (msg : string)
| DeviceError (msg : string).   (* any [Exception] raised inside the device *)

(** [str(e)]. *)
Definition exn_str (e : exn) : string :=
  match e with
  | StopIteration => ""
  | ValueError m | TypeError m | IndexError m | DeviceError m => m
  end.

Inductive result (A : Type) : Type :=
| Val (a : A)
| Exc (e : exn).
Arguments Val {A} a.
Arguments Exc {A} e.

(** ** tools/computer.py *)

Module Computer.

Import PyStr.

(** A [float], carried as its [repr]. *)
Definition pyfloat : Type := string.

Inductive arg (A : Type) : Type :=
| Absent
| PyNone
| Given (a : A).
Arguments Absent {A}.
Arguments PyNone {A}.
Arguments Given {A} a.

(** The keyword parameters read by the handlers and by [describe_action]. *)
Record params : Type := mk_params {
  coordinate : arg (list Z);
  start_coordinate : arg (list Z);
  text : arg string;
  key : arg string;
  scroll_direction : arg string;
  scroll_amount : option Z;
  duration : option pyfloat
}.

Definition no_params : params :=
  mk_params Absent Absent Absent Absent Absent None None.

(** The dict returned by a handler: [{"error": m}], [{"result": t}] or
    [{"type": "image", "media_type": mt, "data": d}]. *)
Inductive outcome : Type :=
| Error (message : string)
| Result (text : string)
| Image (media_type data : string).

(** *** The device *)

Inductive dev_call : Type :=
| Screencapture                         (* subprocess.run(["screencapture", ...]) and the PIL pipeline *)
| Click (x y : Z) (button : string)     (* pyautogui.click(x, y, button=...) *)
| DoubleClick (x y : Z)                 (* pyautogui.doubleClick(x, y) *)
| TripleClick (x y : Z)                 (* pyautogui.tripleClick(x, y) *)
| MoveTo (x y : Z)                      (* pyautogui.moveTo(x, y) *)
| Drag (dx dy : Z)                      (* pyautogui.drag(dx, dy, duration=0.5) *)
| Write (text : string)                 (* pyautogui.write(text, interval=0.02) *)
| Press (key : string)                  (* pyautogui.press(key) *)
| Hotkey (keys : list string)           (* pyautogui.hotkey( *keys ) *)
| Scroll (clicks : Z)                   (* pyautogui.scroll(clicks) *)
| HScroll (clicks : Z)                  (* pyautogui.hscroll(clicks) *)
| Sleep (seconds : pyfloat).            (* time.sleep(seconds) *)

(** What a screen capture that did not raise comes to: a non-zero return
    code of [screencapture] with its stderr, or the base64 JPEG. *)
Inductive capture : Type :=
| CaptureFailed (stderr : string)
| CaptureImage (data : string).

(** The device as an oracle over the calls made so far: [dev_do] answers
    [Some msg] when the call raises an exception whose text is [msg], and
    [dev_capture] is what the capture just made has produced. *)
Record device : Type := mk_device {
  dev_do : list dev_call -> dev_call -> option string;
  dev_capture : list dev_call -> capture
}.

(** Handlers run against the trace of device calls. *)
Definition H (A : Type) : Type := list dev_call -> result A * list dev_call.

Definition ret {A} (a : A) : H A := fun tr => (Val a, tr).
Definition bind {A B} (m : H A) (k : A -> H B) : H B :=
  fun tr =>
    match m tr with
    | (Val a, tr') => k a tr'
    | (Exc e, tr') => (Exc e, tr')
    end.
Definition lift {A} (r : result A) : H A := fun tr => (r, tr).

Notation "x <- m ;; k" := (bind m (fun x => k))
  (at level 61, m at next level, right associativity).
Notation "m ;;; k" := (bind m (fun _ => k))
  (at level 61, right associativity).

Section Tool.

Variable dev : device.
Variables display_width display_height : Z.

(** One call of a device primitive that returns nothing. *)
Definition call (c : dev_call) : H unit :=
  fun tr =>
    match dev_do dev tr c with
    | None => (Val tt, (tr ++ [c])%list)
    | Some m => (Exc (DeviceError m), (tr ++ [c])%list)
    end.

(** [_validate_coordinates]: [None] stands for the pair [(True, None)] and
    [Some e] for [(False, e)]. *)
Definition _validate_coordinates (x y : Z) : option string :=
  if negb ((0 <=? x)%Z && (x <? display_width)%Z) then
    Some ("X coordinate " ++ str_int x ++ " is outside display bounds (0-"
          ++ str_int (display_width - 1) ++ ")")
  else if negb ((0 <=? y)%Z && (y <? display_height)%Z) then
    Some ("Y coordinate " ++ str_int y ++ " is outside display bounds (0-"
          ++ str_int (display_height - 1) ++ ")")
  else None.

(** [a, b = l] (messages of CPython up to 3.13). *)
Definition unpack2 (l : list Z) : result (Z * Z) :=
  match l with
  | [a; b] => Val (a, b)
  | _ :: _ :: _ :: _ => Exc (ValueError "too many values to unpack (expected 2)")
  | _ => Exc (ValueError ("not enough values to unpack (expected 2, got "
                          ++ str_int (Z.of_nat (List.length l)) ++ ")"))
  end.

Definition point (x y : Z) : string :=
  "(" ++ str_int x ++ ", " ++ str_int y ++ ")".

(** [_screenshot]. *)
Definition _screenshot (_ : params) : H outcome :=
  call Screencapture ;;;
  fun tr =>
    match dev_capture dev tr with
    | CaptureFailed stderr => (Val (Error ("Screenshot failed: " ++ stderr)), tr)
    | CaptureImage data => (Val (Image "image/jpeg" data), tr)
    end.

(** The shape shared by the five click handlers and [_mouse_move]: a
    required coordinate, its validation, one device call, a report. *)
Definition at_coordinate (name : string) (act : Z -> Z -> dev_call)
    (done : string) (p : params) : H outcome :=
  match coordinate p with
  | Absent | PyNone => ret (Error ("coordinate is required for " ++ name))
  | Given c =>
      xy <- lift (unpack2 c) ;;
      let '(x, y) := xy in
      match _validate_coordinates x y with
      | Some error => ret (Error error)
      | None => call (act x y) ;;; ret (Result (done ++ point x y))
      end
  end.

Definition _left_click : params -> H outcome :=
  at_coordinate "left_click" (fun x y => Click x y "left") "Left clicked at ".
Definition _right_click : params -> H outcome :=
  at_coordinate "right_click" (fun x y => Click x y "right") "Right clicked at ".
Definition _middle_click : params -> H outcome :=
  at_coordinate "middle_click" (fun x y => Click x y "middle") "Middle clicked at ".
Definition _double_click : params -> H outcome :=
  at_coordinate "double_click" DoubleClick "Double clicked at ".
Definition _triple_click : params -> H outcome :=
  at_coordinate "triple_click" TripleClick "Triple clicked at ".
Definition _mouse_move : params -> H outcome :=
  at_coordinate "mouse_move" MoveTo "Moved mouse to ".

(** [_left_click_drag]. *)
Definition _left_click_drag (p : params) : H outcome :=
  match start_coordinate p, coordinate p with
  | Given s, Given c =>
      sxy <- lift (unpack2 s) ;;
      let '(start_x, start_y) := sxy in
      exy <- lift (unpack2 c) ;;
      let '(end_x, end_y) := exy in
      match _validate_coordinates start_x start_y with
      | Some error => ret (Error ("Start " ++ error))
      | None =>
          match _validate_coordinates end_x end_y with
          | Some error => ret (Error ("End " ++ error))
          | None =>
              call (MoveTo start_x start_y) ;;;
              call (Drag (end_x - start_x) (end_y - start_y)) ;;;
              ret (Result ("Dragged from " ++ point start_x start_y
                           ++ " to " ++ point end_x end_y))
          end
      end
  | _, _ => ret (Error "start_coordinate and coordinate are required for left_click_drag")
  end.

(** [_type_text]. *)
Definition _type_text (p : params) : H outcome :=
  match text p with
  | Absent | PyNone => ret (Error "text is required for type")
  | Given t =>
      call (Write t) ;;;
      ret (Result ("Typed: " ++ take 50 t ++ (if (50 <? len t)%Z then "..." else "")))
  end.

(** [key.lower().replace("ctrl", "command").split("+")]. *)
Definition key_names (k : string) : list string :=
  split "+"%char (replace "ctrl" "command" (lower k)).

(** [_key_press]. *)
Definition _key_press (p : params) : H outcome :=
  match key p with
  | Absent | PyNone => ret (Error "key is required for key action")
  | Given k =>
      let keys := key_names k in
      (match keys with
       | [k0] => call (Press k0)
       | _ => call (Hotkey keys)
       end) ;;;
      ret (Result ("Pressed key: " ++ k))
  end.

(** [_scroll]. *)
Definition _scroll (p : params) : H outcome :=
  let amount := match scroll_amount p with Some n => n | None => 3 end in
  match coordinate p with
  | Absent | PyNone => ret (Error "coordinate is required for scroll")
  | Given c =>
      match scroll_direction p with
      | Absent | PyNone => ret (Error "scroll_direction is required for scroll")
      | Given direction =>
          xy <- lift (unpack2 c) ;;
          let '(x, y) := xy in
          match _validate_coordinates x y with
          | Some error => ret (Error error)
          | None =>
              call (MoveTo x y) ;;;
              let report :=
                ret (Result ("Scrolled " ++ direction ++ " by " ++ str_int amount
                             ++ " at " ++ point x y)) in
              if direction =? "up" then call (Scroll amount) ;;; report
              else if direction =? "down" then call (Scroll (- amount)) ;;; report
              else if direction =? "left" then call (HScroll (- amount)) ;;; report
              else if direction =? "right" then call (HScroll amount) ;;; report
              else ret (Error ("Invalid scroll direction: " ++ direction))
          end
      end
  end.

(** [_wait]. *)
Definition _wait (p : params) : H outcome :=
  let d := match duration p with Some d => d | None => "1.0" end in
  call (Sleep d) ;;;
  ret (Result ("Waited " ++ d ++ " seconds")).

(** The dict [action_handlers] of [execute]. *)
Definition action_handlers : list (string * (params -> H outcome)) :=
  [ ("screenshot", _screenshot);
    ("left_click", _left_click);
    ("right_click", _right_click);
    ("middle_click", _middle_click);
    ("double_click", _double_click);
    ("triple_click", _triple_click);
    ("left_click_drag", _left_click_drag);
    ("mouse_move", _mouse_move);
    ("type", _type_text);
    ("key", _key_press);
    ("scroll", _scroll);
    ("wait", _wait) ].

(** [d.get(k)] on a dict given by its items. *)
Fixpoint dict_get {V : Type} (d : list (string * V)) (k : string) : option V :=
  match d with
  | [] => None
  | (k', v) :: d' => if k =? k' then Some v else dict_get d' k
  end.

(** [execute]: unknown names are reported, and whatever the handler raises
    is turned into an error outcome. *)
Definition execute (action : string) (p : params)
    (tr : list dev_call) : outcome * list dev_call :=
  match dict_get action_handlers action with
  | None => (Error ("Unknown action: " ++ action), tr)
  | Some handler =>
      match handler p tr with
      | (Val o, tr') => (o, tr')
      | (Exc e, tr') =>
          (Error ("Action '" ++ action ++ "' failed: " ++ exn_str e), tr')
      end
  end.

End Tool.

(** [coord[0]], [coord[1]] on the value of [params.get(name, [0, 0])]. *)
Definition subscript2 (a : arg (list Z)) : result (Z * Z) :=
  match a with
  | Absent => Val (0, 0)
  | PyNone => Exc (TypeError "'NoneType' object is not subscriptable")
  | Given (a :: b :: _) => Val (a, b)
  | Given _ => Exc (IndexError "list index out of range")
  end.

(** [f"{params.get(name, default)}"] for a string parameter. *)
Definition fmt_or (default : string) (a : arg string) : string :=
  match a with
  | Absent => default
  | PyNone => "None"
  | Given s => s
  end.

(** [describe_action]; it reads neither the display size nor the device. *)
Definition describe_action (action : string) (p : params) : result string :=
  let at_coord (label : string) :=
    match subscript2 (coordinate p) with
    | Val (x, y) => Val (label ++ point x y)
    | Exc e => Exc e
    end in
  if action =? "screenshot" then Val "Take a screenshot"
  else if action =? "left_click" then at_coord "Left click at "
  else if action =? "right_click" then at_coord "Right click at "
  else if action =? "double_click" then at_coord "Double click at "
  else if action =? "mouse_move" then at_coord "Move mouse to "
  else if action =? "type" then
    match text p with
    | PyNone => Exc (TypeError "object of type 'NoneType' has no len()")
    | Absent => Val "Type: ''"
    | Given t =>
        let preview := if (30 <? len t)%Z then take 30 t ++ "..." else t in
        Val ("Type: '" ++ preview ++ "'")
    end
  else if action =? "key" then Val ("Press key: " ++ fmt_or "" (key p))
  else if action =? "scroll" then
    let direction := fmt_or "down" (scroll_direction p) in
    let amount := match scroll_amount p with Some n => n | None => 3 end in
    Val ("Scroll " ++ direction ++ " by " ++ str_int amount)
  else if action =? "wait" then
    Val ("Wait " ++ (match duration p with Some d => d | None => "1.0" end)
         ++ " seconds")
  else if action =? "left_click_drag" then
    match subscript2 (start_coordinate p) with
    | Exc e => Exc e
    | Val (sx, sy) =>
        match subscript2 (coordinate p) with
        | Exc e => Exc e
        | Val (ex, ey) => Val ("Drag from " ++ point sx sy ++ " to " ++ point ex ey)
        end
    end
  else Val ("Unknown action: " ++ action).

End Computer.

(** ** agent.py *)

Module Agent.

Import PyStr Computer.

(** [block.input] of a tool-use block: the [action] entry and the rest. *)
Record tool_input : Type := mk_input {
  action : option string;
  action_params : params
}.

(** A content block of a model response. *)
Inductive block : Type :=
| TextBlock (text : string)
| ToolUseBlock (id name : string) (input : tool_input)
| OtherBlock (type : string).      (* neither a [text] attribute nor type [tool_use] *)

Inductive result_content : Type :=
| TextContent (s : string)
| ImageContent (media_type data : string).

(** A [tool_result] dict; [is_error] is [false] where the key is left out. *)
Record tool_result : Type := mk_tool_result {
  tool_use_id : string;
  content : result_content;
  is_error : bool
}.

(** An entry of [self.messages]. *)
Inductive message : Type :=
| UserTask (task : string)
| AssistantTurn (content : list block)
| UserResults (tool_results : list tool_result).

(** What [confirm_callback] does with a description: return [True], return
    [False], or raise [StopIteration]. *)
Inductive decision : Type :=
| Execute
| Skip
| Quit.

(** The callback is an oracle over the descriptions it was shown before. *)
Definition callback : Type := list string -> string -> decision.

(** What lies outside the agent: the prompts shown to the user and the
    device calls made. *)
Record world : Type := mk_world {
  asked : list string;
  calls : list dev_call
}.

(** [_create_tool_result]. *)
Definition _create_tool_result (tool_use_id : string) (r : outcome) : tool_result :=
  match r with
  | Error m => mk_tool_result tool_use_id (TextContent m) true
  | Image mt d => mk_tool_result tool_use_id (ImageContent mt d) false
  | Result t => mk_tool_result tool_use_id (TextContent t) false
  end.

Definition skipped (tool_id : string) : tool_result :=
  mk_tool_result tool_id (TextContent "Action skipped by user") false.

Definition unknown_tool (tool_id tool_name : string) : tool_result :=
  mk_tool_result tool_id (TextContent ("Unknown tool: " ++ tool_name)) true.

(** The answer of the model transport to one request. *)
Inductive api_reply : Type :=
| ApiRaises (msg : string)
| ApiResponse (stop_reason : string) (content : list block).

(** The status lines [run] prints. *)
Inductive line : Type :=
| ApiErrorLine (msg : string)        (* "API Error: ..." *)
| TaskCompletedLine                  (* "[Task completed]" *)
| UserQuitLine                       (* "[User quit]" *)
| NoMoreToolCallsLine                (* "[No more tool calls]" *)
| MaxIterationsLine (n : Z).         (* "[Max iterations (n) reached]" *)

(** The place where [run] stops. *)
Inductive exit_point : Type :=
| LoopEnded                          (* the [while] condition is false *)
| ApiError                           (* [return] in the handler of the request *)
| EndTurn                            (* [break] on [stop_reason == "end_turn"] *)
| UserQuit                           (* [break] on [StopIteration] *)
| NoToolResults                      (* [break] on an empty [tool_results] *)
| Uncaught (e : exn).                (* an exception leaves [run] *)

(** The fields of the agent that [run] updates, with the world. *)
Record state : Type := mk_state {
  messages : list message;
  iterations : Z;
  final_response : string;
  requests : nat;                    (* calls of [messages.create] so far *)
  stdout : list line;
  env : world
}.

(** How a [run] ends: where it stopped, what it returned (nothing when an
    exception left it), and the final state. *)
Record ending : Type := mk_ending {
  exit : exit_point;
  returned : option string;
  final : state
}.

Section Loop.

Variable dev : device.
Variables display_width display_height : Z.
Variable max_iterations : Z.
Variable confirm_callback : option callback.
Variable client : Z -> list message -> api_reply.

(** The body of the [for] loop of [_process_tool_calls] for one block:
    the results so far extended, or the exception that leaves the loop. *)
Definition process_block (b : block) (tool_results : list tool_result) (w : world)
    : result (list tool_result) * world :=
  match b with
  | ToolUseBlock tool_id tool_name tool_input =>
      if negb (tool_name =? "computer") then
        (Val (tool_results ++ [unknown_tool tool_id tool_name])%list, w)
      else
        let act := match action tool_input with Some a => a | None => "" end in
        let action_params := action_params tool_input in
        match describe_action act action_params with
        | Exc e => (Exc e, w)
        | Val action_desc =>
            let run_it (w : world) :=
              let '(r, tr) :=
                execute dev display_width display_height act action_params (calls w) in
              (Val (tool_results ++ [_create_tool_result tool_id r])%list,
               mk_world (asked w) tr) in
            match confirm_callback with
            | Some cb =>
                if negb (act =? "screenshot") then
                  let w' := mk_world (asked w ++ [action_desc])%list (calls w) in
                  match cb (asked w) action_desc with
                  | Quit => (Exc StopIteration, w')
                  | Skip => (Val (tool_results ++ [skipped tool_id])%list, w')
                  | Execute => run_it w'
                  end
                else run_it w
            | None => run_it w
            end
        end
  | _ => (Val tool_results, w)
  end.

(** The loop of [_process_tool_calls] from a given list of results on. *)
Fixpoint process_from (response_content : list block)
    (tool_results : list tool_result) (w : world)
    : result (list tool_result) * world :=
  match response_content with
  | [] => (Val tool_results, w)
  | b :: rest =>
      match process_block b tool_results w with
      | (Val tool_results', w') => process_from rest tool_results' w'
      | (Exc e, w') => (Exc e, w')
      end
  end.

(** [_process_tool_calls]. *)
Definition _process_tool_calls (response_content : list block) (w : world)
    : result (list tool_result) * world :=
  process_from response_content [] w.

(** The loop over the blocks that keeps the last text. *)
Fixpoint last_text (content : list block) (final_response : string) : string :=
  match content with
  | [] => final_response
  | TextBlock t :: rest => last_text rest t
  | _ :: rest => last_text rest final_response
  end.

(** The code after the loop. *)
Definition after_loop (how : exit_point) (st : state) : ending :=
  let out :=
    if (max_iterations <=? iterations st)%Z
    then (stdout st ++ [MaxIterationsLine max_iterations])%list
    else stdout st in
  mk_ending how (Some (final_response st))
    (mk_state (messages st) (iterations st) (final_response st) (requests st)
       out (env st)).

(** The body of the [while] loop: the state for the next round, or the
    way the run ends on a [break], a [return] or an exception. *)
Definition iteration (st : state) : state + ending :=
  let iterations' := (iterations st + 1)%Z in
  let requests' := S (requests st) in
  match client iterations' (messages st) with
  | ApiRaises e =>
      inr (mk_ending ApiError (Some ("API Error: " ++ e))
             (mk_state (messages st) iterations' (final_response st) requests'
                (stdout st ++ [ApiErrorLine e])%list (env st)))
  | ApiResponse stop_reason content =>
      let messages' := (messages st ++ [AssistantTurn content])%list in
      let final_response' := last_text content (final_response st) in
      if stop_reason =? "end_turn" then
        inr (after_loop EndTurn
               (mk_state messages' iterations' final_response' requests'
                  (stdout st ++ [TaskCompletedLine])%list (env st)))
      else
        match _process_tool_calls content (env st) with
        | (Exc StopIteration, w) =>
            inr (after_loop UserQuit
                   (mk_state messages' iterations' final_response' requests'
                      (stdout st ++ [UserQuitLine])%list w))
        | (Exc e, w) =>
            inr (mk_ending (Uncaught e) None
                   (mk_state messages' iterations' final_response' requests'
                      (stdout st) w))
        | (Val [], w) =>
            inr (after_loop NoToolResults
                   (mk_state messages' iterations' final_response' requests'
                      (stdout st ++ [NoMoreToolCallsLine])%list w))
        | (Val tool_results, w) =>
            inl (mk_state (messages' ++ [UserResults tool_results])%list
                   iterations' final_response' requests' (stdout st) w)
        end
  end.

(** The [while] loop; [remaining] is [max_iterations - iterations], so the
    condition [iterations < max_iterations] holds exactly while it is not 0. *)
Fixpoint loop (remaining : nat) (st : state) : ending :=
  match remaining with
  | O => after_loop LoopEnded st
  | S remaining' =>
      match iteration st with
      | inl st' => loop remaining' st'
      | inr e => e
      end
  end.

(** [run], started in a given world. *)
Definition run (task : string) (w : world) : ending :=
  loop (Z.to_nat max_iterations)
    (mk_state [UserTask task] 0 "" 0 [] w).

End Loop.

(** The identifiers of the tool-use blocks of a response, in order. *)
Fixpoint request_ids (content : list block) : list string :=
  match content with
  | [] => []
  | ToolUseBlock id _ _ :: rest => id :: request_ids rest
  | _ :: rest => request_ids rest
  end.

(** The identifiers of all tool results of a conversation, in order. *)
Fixpoint result_ids (ms : list message) : list string :=
  match ms with
  | [] => []
  | UserResults rs :: rest => (map tool_use_id rs ++ result_ids rest)%list
  | _ :: rest => result_ids rest
  end.

End Agent.

(** ** main.py *)

Module Main.

Import PyStr Agent.

(** The characters [str.strip] takes off, within ASCII: tab to carriage
    return, the four separators and the space. *)
Definition is_space (c : ascii) : bool :=
  let n := nat_of_ascii c in
  ((Nat.leb 9 n && Nat.leb n 13) || (Nat.leb 28 n && Nat.leb n 32))%bool.

(** [s.lstrip()]. *)
Fixpoint lstrip (s : string) : string :=
  match s with
  | EmptyString => EmptyString
  | String c s' => if is_space c then lstrip s' else s
  end.

(** [s.rstrip()]. *)
Fixpoint rstrip (s : string) : string :=
  match s with
  | EmptyString => EmptyString
  | String c s' =>
      match rstrip s' with
      | EmptyString => if is_space c then EmptyString else String c EmptyString
      | r => String c r
      end
  end.

(** [s.strip()]. *)
Definition strip (s : string) : string := rstrip (lstrip s).

(** [confirm_action], reading the lines typed at the prompt: the answer,
    or [None] when [input] finds no line left and raises [EOFError], and
    the lines not read.  [True] is [Execute], [False] is [Skip] and
    [StopIteration] is [Quit]. *)
Fixpoint confirm_action (action_desc : string) (typed : list string)
    : option decision * list string :=
  match typed with
  | [] => (None, [])
  | line :: rest =>
      let response := strip (lower line) in
      if response =? "y" then (Some Execute, rest)
      else if response =? "n" then (Some Skip, rest)
      else if response =? "q" then (Some Quit, rest)
      else confirm_action action_desc rest
  end.

End Main.

(** * Properties *)

Import PyStr Computer Agent Main.

(** ** Vocabulary of the statements *)

(** The closed set of action names of the dispatcher. *)
Definition known_actions : list string :=
  [ "screenshot"; "left_click"; "right_click"; "middle_click"; "double_click";
    "triple_click"; "left_click_drag"; "mouse_move"; "type"; "key"; "scroll";
    "wait" ].

(** The actions that take one coordinate pair. *)
Definition point_actions : list string :=
  [ "left_click"; "right_click"; "middle_click"; "double_click";
    "triple_click"; "mouse_move"; "scroll" ].

(** [0 <= v < size]. *)
Definition in_range (v size : Z) : bool := ((0 <=? v) && (v <? size))%Z.

Definition out_of_bounds (w h x y : Z) : bool :=
  negb (in_range x w && in_range y h).

(** The text that names an axis, the value it was given and the valid
    range [0..size-1]. *)
Definition axis_error (axis : string) (v size : Z) : string :=
  axis ++ " coordinate " ++ str_int v ++ " is outside display bounds (0-"
  ++ str_int (size - 1) ++ ")".

(** The first offending axis of a pair, X before Y. *)
Definition offence (w h x y : Z) : string :=
  if in_range x w then axis_error "Y" y h else axis_error "X" x w.

(** The action names [describe_action] has a case for. *)
Definition described_actions : list string :=
  [ "screenshot"; "left_click"; "right_click"; "double_click"; "mouse_move";
    "type"; "key"; "scroll"; "wait"; "left_click_drag" ].

(** A coordinate parameter that can be subscripted at 0 and 1: left out
    (the default pair is used) or a list of at least two entries. *)
Definition subscriptable (a : arg (list Z)) : bool :=
  match a with
  | Absent => true
  | PyNone => false
  | Given l => (2 <=? List.length l)%nat
  end.

(** The parameters that the description of [action] reads have a shape it
    can use. *)
Definition well_shaped (action : string) (p : params) : bool :=
  if existsb (String.eqb action)
       ["left_click"; "right_click"; "double_click"; "mouse_move"]
  then subscriptable (coordinate p)
  else if action =? "left_click_drag"
  then subscriptable (start_coordinate p) && subscriptable (coordinate p)
  else if action =? "type"
  then match text p with PyNone => false | _ => true end
  else true.

(** The action a tool-use block asks for: [tool_input.get("action", "")]. *)
Definition action_of (i : tool_input) : string :=
  match action i with Some a => a | None => "" end.

(** A block whose description, if one is asked for, can be formed. *)
Definition describable (b : block) : bool :=
  match b with
  | ToolUseBlock _ name i =>
      negb (name =? "computer") || well_shaped (action_of i) (action_params i)
  | _ => true
  end.

(** A block that, if it is a tool use, goes through the confirmation: a
    request of the [computer] tool for any action but [screenshot]. *)
Definition confirmable (b : block) : bool :=
  match b with
  | ToolUseBlock _ name i =>
      (name =? "computer") && negb (action_of i =? "screenshot")
  | _ => true                        (* passed over by the loop *)
  end.



(** *** Sample inputs *)

(** A device that never raises and captures a fixed image. *)
Definition steady_device : device :=
  mk_device (fun _ _ => None) (fun _ => CaptureImage "/9j/").

(** A device whose clicks raise. *)
Definition faulty_device : device :=
  mk_device
    (fun _ c => match c with Click _ _ _ => Some "fail-safe triggered" | _ => None end)
    (fun _ => CaptureImage "/9j/").

Definition at_point (x y : Z) : params :=
  mk_params (Given [x; y]) Absent Absent Absent Absent None None.

Definition with_key (k : string) : params :=
  mk_params Absent Absent Absent (Given k) Absent None None.

Definition scroll_at (x y : Z) (direction : string) : params :=
  mk_params (Given [x; y]) Absent Absent Absent (Given direction) None None.

Definition click_request (id : string) (x y : Z) : block :=
  ToolUseBlock id "computer" (mk_input (Some "left_click") (at_point x y)).

Definition screenshot_request (id : string) : block :=
  ToolUseBlock id "computer" (mk_input (Some "screenshot") no_params).

(** A batch of three actions. *)
Definition three_clicks : list block :=
  [ click_request "toolu_1" 10 10;
    click_request "toolu_2" 20 20;
    click_request "toolu_3" 30 30 ].

(** A model that answers every request with the same batch. *)
Definition batch_client : Z -> list message -> api_reply :=
  fun _ _ => ApiResponse "tool_use" three_clicks.


(** A user who confirms the first action shown and quits at the second. *)
Definition quit_on_second : callback :=
  fun shown _ => match shown with [] => Execute | _ => Quit end.

(** A user who declines everything. *)
Definition always_skip : callback := fun _ _ => Skip.

Definition fresh_world : world := mk_world [] [].

(** The state in which [run] enters its loop. *)
Definition start_state (task : string) : state :=
  mk_state [UserTask task] 0 "" 0 [] fresh_world.

(** Every call of [cs], made in turn after [tr], returns. *)
Fixpoint all_return (dev : device) (tr cs : list dev_call) : Prop :=
  match cs with
  | [] => True
  | c :: cs' => dev_do dev tr c = None /\ all_return dev (tr ++ [c])%list cs'
  end.

(** The calls [cs] a computation made after [tr] and its result [r] fit the
    device: either every call returned, or every call but the last did and
    the computation raised what the last call raised. *)
Definition fits {A} (dev : device) (tr cs : list dev_call) (r : result A) : Prop :=
  all_return dev tr cs \/
  exists cs0 c msg,
    cs = (cs0 ++ [c])%list /\ all_return dev tr cs0 /\
    dev_do dev (tr ++ cs0)%list c = Some msg /\ r = Exc (DeviceError msg).

(** A computation all of whose runs fit the device. *)
Definition guarded {A} (dev : device) (m : H A) : Prop :=
  forall tr r tr', m tr = (r, tr') ->
  exists cs, tr' = (tr ++ cs)%list /\ fits dev tr cs r.

(** *** Vocabulary of the further properties *)

(** The device call of an action that acts at one point. *)
Definition click_call (action : string) (x y : Z) : option dev_call :=
  if action =? "left_click" then Some (Click x y "left")
  else if action =? "right_click" then Some (Click x y "right")
  else if action =? "middle_click" then Some (Click x y "middle")
  else if action =? "double_click" then Some (DoubleClick x y)
  else if action =? "triple_click" then Some (TripleClick x y)
  else if action =? "mouse_move" then Some (MoveTo x y)
  else None.

(** A parameter that was given a value. *)
Definition is_given {A} (a : arg A) : bool :=
  match a with Given _ => true | _ => false end.

(** A parameter the handler of [action] requires is left out or [None]. *)
Definition missing_required (action : string) (p : params) : bool :=
  if existsb (String.eqb action)
       ["left_click"; "right_click"; "middle_click"; "double_click";
        "triple_click"; "mouse_move"]
  then negb (is_given (coordinate p))
  else if action =? "scroll"
  then negb (is_given (coordinate p) && is_given (scroll_direction p))
  else if action =? "left_click_drag"
  then negb (is_given (start_coordinate p) && is_given (coordinate p))
  else if action =? "type" then negb (is_given (text p))
  else if action =? "key" then negb (is_given (key p))
  else false.

(** The outcome is an error. *)
Definition is_error_outcome (o : outcome) : bool :=
  match o with Error _ => true | _ => false end.

(** A content without text block. *)
Definition is_text (b : block) : bool :=
  match b with TextBlock _ => true | _ => false end.

(** A request of the [computer] tool for a screenshot. *)
Definition screenshot_block (b : block) : bool :=
  match b with
  | ToolUseBlock _ name i => (name =? "computer") && (action_of i =? "screenshot")
  | _ => false
  end.

(** The requests of a response that are shown to the user when there is a
    callback. *)
Fixpoint shown_count (content : list block) : nat :=
  match content with
  | [] => O
  | ToolUseBlock _ name i :: rest =>
      if (name =? "computer") && negb (action_of i =? "screenshot")
      then S (shown_count rest) else shown_count rest
  | _ :: rest => shown_count rest
  end.

(** Rounds that were completed: a response followed by the results for
    its requests, one after the other. *)
Inductive complete : list message -> Prop :=
| complete_nil : complete []
| complete_round content rs rest :
    rs <> [] ->
    map tool_use_id rs = request_ids content ->
    complete rest ->
    complete (AssistantTurn content :: UserResults rs :: rest).

(** The number of responses in a conversation. *)
Fixpoint responses (ms : list message) : nat :=
  match ms with
  | [] => O
  | AssistantTurn _ :: rest => S (responses rest)
  | _ :: rest => responses rest
  end.

(** The status line that goes with a [break] of the loop. *)
Definition exit_line (how : exit_point) : list line :=
  match how with
  | EndTurn => [TaskCompletedLine]
  | UserQuit => [UserQuitLine]
  | NoToolResults => [NoMoreToolCallsLine]
  | _ => []
  end.

(** The answer a typed line stands for, if it is one. *)
Definition answer (line : string) : option decision :=
  let response := strip (lower line) in
  if response =? "y" then Some Execute
  else if response =? "n" then Some Skip
  else if response =? "q" then Some Quit
  else None.

(** A computation that makes at most [n] device calls, appended to the
    trace it was given. *)
Definition within (n : nat) {A} (m : H A) : Prop :=
  forall tr, exists cs,
    snd (m tr) = (tr ++ cs)%list /\ (List.length cs <= n)%nat.

(** A string of blank characters only. *)
Fixpoint blank (s : string) : bool :=
  match s with
  | EmptyString => true
  | String c s' => is_space c && blank s'
  end.

(** The blocks of all the responses of a conversation, in order. *)
Fixpoint spoken (ms : list message) : list block :=
  match ms with
  | [] => []
  | AssistantTurn content :: rest => (content ++ spoken rest)%list
  | _ :: rest => spoken rest
  end.

(** A text of ASCII characters only.  On such texts bytes and characters
    are the same, and [lower], [len], [take] and [strip] are what
    [str.lower], [len], slicing and [str.strip] compute. *)
Fixpoint ascii_only (s : string) : bool :=
  match s with
  | EmptyString => true
  | String c s' => Nat.ltb (nat_of_ascii c) 128 && ascii_only s'
  end.



(** ** Strings *)









Lemma lower_char_not_upper (c : ascii) : is_upper (lower_char c) = false.
Proof.
  destruct c as [b0 b1 b2 b3 b4 b5 b6 b7].
  destruct b0, b1, b2, b3, b4, b5, b6, b7; reflexivity.
Qed.

Lemma lower_idempotent (s : string) : lower (lower s) = lower s.
Proof.
  induction s as [| c s IH]; [reflexivity|]. cbn [lower]. rewrite IH. f_equal.
  unfold lower_char at 1. now rewrite lower_char_not_upper.
Qed.












(** ** Descriptions *)

Lemma subscript2_ok (a : arg (list Z)) :
  subscriptable a = true -> exists x y, subscript2 a = Val (x, y).
Proof.
  destruct a as [| | [| a [| b l]]]; cbn; try discriminate; intros _; eauto.
Qed.

Lemma subscript2_raises (a : arg (list Z)) :
  subscriptable a = false -> exists e, subscript2 a = Exc e.
Proof.
  destruct a as [| | [| a [| b l]]]; cbn; try discriminate; intros _; eauto.
Qed.

Ltac by_action action :=
  repeat match goal with
         | |- context [String.eqb action ?k] =>
             destruct (String.eqb_spec action k) as [-> | ?];
             cbn [String.eqb Ascii.eqb Bool.eqb existsb orb andb]
         end.

(** On well-shaped parameters the description is formed. *)
Lemma describe_action_defined (action : string) (p : params) :
  well_shaped action p = true -> exists s, describe_action action p = Val s.
Proof.
  unfold well_shaped, describe_action. cbn [existsb].
  by_action action; intros Hw;
    repeat match goal with
           | H : (subscriptable _ && subscriptable _)%bool = true |- _ =>
               apply andb_prop in H as [? ?]
           | H : subscriptable _ = true |- _ =>
               apply subscript2_ok in H as (? & ? & ->)
           end;
    match goal with
    | |- context [text p] => destruct (text p); try discriminate Hw
    | _ => idtac
    end;
    eexists; reflexivity.
Qed.

(** A name without a case of its own falls through to the last branch. *)
Lemma describe_action_fallback (action : string) (p : params) :
  ~ In action described_actions ->
  describe_action action p = Val ("Unknown action: " ++ action).
Proof.
  intros Hn. unfold describe_action.
  repeat match goal with
         | |- context [String.eqb action ?k] =>
             destruct (String.eqb_spec action k) as [-> | _];
             [exfalso; apply Hn; unfold described_actions; cbn [In]; tauto|]
         end.
  reflexivity.
Qed.

(** C8, as the code has it. [describe_action] is a function of the action
    name and the parameters alone: it takes no device and no state, so it
    has no effect and equal arguments give equal descriptions.  It returns
    a string whenever the parameters it reads for that action are left out
    or well shaped, and for a name it has no case for that string is
    "Unknown action: <name>". *)
Theorem describe_action_returns (action : string) (p : params) :
  well_shaped action p = true ->
  exists s,
    describe_action action p = Val s /\
    (~ In action described_actions -> s = "Unknown action: " ++ action).
Proof.
  intros Hw. destruct (describe_action_defined action p Hw) as [s Hs].
  exists s. split; [exact Hs|].
  intros Hn. rewrite (describe_action_fallback action p Hn) in Hs.
  now injection Hs.
Qed.

(** Conversely, on parameters of another shape the description raises. *)
Lemma describe_action_raises (action : string) (p : params) :
  well_shaped action p = false -> exists e, describe_action action p = Exc e.
Proof.
  unfold well_shaped, describe_action. cbn [existsb].
  by_action action; intros Hw; try discriminate.
  all: try (apply subscript2_raises in Hw as [e ->]; eauto; fail).
  all: try (destruct (text p); try discriminate; eauto; fail).
  apply andb_false_iff in Hw as [Hw | Hw];
    apply subscript2_raises in Hw as [e He]; rewrite He.
  - eauto.
  - destruct (subscript2 (start_coordinate p)) as [[sx sy] | e']; eauto.
Qed.

(** ** The dispatcher *)

Section Dispatcher.

Variable dev : device.
Variables w h : Z.

Lemma dict_get_known (action : string) :
  dict_get (action_handlers dev w h) action = None -> ~ In action known_actions.
Proof.
  intros Hget Hin.
  unfold known_actions in Hin; cbn [In] in Hin.
  repeat (destruct Hin as [<- | Hin]; [discriminate Hget|]).
  exact Hin.
Qed.

Lemma dict_get_unknown (action : string) :
  ~ In action known_actions -> dict_get (action_handlers dev w h) action = None.
Proof.
  intros Hn.
  unfold action_handlers; cbn [dict_get].
  repeat match goal with
         | |- context [String.eqb action ?k] =>
             destruct (String.eqb_spec action k) as [-> | _];
             [exfalso; apply Hn; unfold known_actions; cbn [In]; tauto|]
         end.
  reflexivity.
Qed.

(** C7. An action name outside the closed set of twelve is answered with the
    error "Unknown action: <name>", for every parameter set and every device,
    and the trace of device calls is left as it was; [execute] being a total
    function, nothing is raised. *)
Theorem execute_unknown_action (action : string) (p : params) (tr : list dev_call) :
  ~ In action known_actions ->
  execute dev w h action p tr = (Error ("Unknown action: " ++ action), tr).
Proof.
  intros Hn. unfold execute. now rewrite (dict_get_unknown action Hn).
Qed.

(** [_validate_coordinates] accepts exactly the pairs inside the display. *)
Lemma validate_coordinates_spec (x y : Z) :
  _validate_coordinates w h x y =
  if out_of_bounds w h x y then Some (offence w h x y) else None.
Proof.
  unfold _validate_coordinates, out_of_bounds, offence, in_range, axis_error.
  destruct ((0 <=? x)%Z && (x <? w)%Z)%bool; cbn [negb andb]; [|reflexivity].
  destruct ((0 <=? y)%Z && (y <? h)%Z)%bool; reflexivity.
Qed.

Lemma at_coordinate_out_of_bounds name act done (p : params) x y tr :
  coordinate p = Given [x; y] -> out_of_bounds w h x y = true ->
  at_coordinate dev w h name act done p tr = (Val (Error (offence w h x y)), tr).
Proof.
  intros Hc Hout. unfold at_coordinate. rewrite Hc.
  unfold bind, lift, unpack2. rewrite validate_coordinates_spec, Hout.
  reflexivity.
Qed.

(** C3, as the code has it. When a coordinate pair handed to an action that
    requires one lies outside the display, [execute] answers with an error
    and makes no device call, whatever the other parameters are.  The error
    names the first offending axis and the range [0..size-1] when the
    action's required parameters are all there: always for the clicks and
    [mouse_move], with a [scroll_direction] for [scroll], and with two pairs
    for [left_click_drag], where the text starts with "Start " or "End ". *)
Theorem out_of_bounds_rejected (tr : list dev_call) :
  (forall action p x y,
      In action point_actions ->
      coordinate p = Given [x; y] ->
      out_of_bounds w h x y = true ->
      exists m,
        execute dev w h action p tr = (Error m, tr) /\
        ((action = "scroll" -> exists d, scroll_direction p = Given d) ->
         m = offence w h x y)) /\
  (forall p x y,
      start_coordinate p = Given [x; y] \/ coordinate p = Given [x; y] ->
      out_of_bounds w h x y = true ->
      exists m,
        execute dev w h "left_click_drag" p tr = (Error m, tr) /\
        (forall sx sy ex ey,
            start_coordinate p = Given [sx; sy] ->
            coordinate p = Given [ex; ey] ->
            m = if out_of_bounds w h sx sy
                then "Start " ++ offence w h sx sy
                else "End " ++ offence w h ex ey)).
Proof.
  split.
  - intros action p x y Hin Hc Hout.
    unfold point_actions in Hin; cbn [In] in Hin.
    destruct Hin as [<- | [<- | [<- | [<- | [<- | [<- | [<- | []]]]]]]];
      unfold execute; cbn [dict_get action_handlers String.eqb Ascii.eqb Bool.eqb];
      unfold _left_click, _right_click, _middle_click, _double_click,
        _triple_click, _mouse_move;
      try (rewrite (at_coordinate_out_of_bounds _ _ _ p x y tr Hc Hout);
           eexists; split; [reflexivity | intros _; reflexivity]).
    unfold _scroll. rewrite Hc.
    destruct (scroll_direction p) as [| | d] eqn:Hd.
    + eexists; split; [reflexivity|].
      intros Hreq. destruct (Hreq eq_refl) as [d Hd']; discriminate.
    + eexists; split; [reflexivity|].
      intros Hreq. destruct (Hreq eq_refl) as [d Hd']; discriminate.
    + unfold bind, lift, unpack2. rewrite validate_coordinates_spec, Hout.
      eexists; split; [reflexivity | intros _; reflexivity].
  - intros p x y Hxy Hout.
    unfold execute; cbn [dict_get action_handlers String.eqb Ascii.eqb Bool.eqb].
    unfold _left_click_drag.
    destruct (start_coordinate p) as [| | s] eqn:Hs;
      destruct (coordinate p) as [| | c] eqn:Hc;
      try (eexists; split; [reflexivity | intros; discriminate]);
      try (destruct Hxy; discriminate).
    unfold bind, lift.
    destruct Hxy as [Hxy | Hxy]; injection Hxy as ->.
    + destruct (unpack2 c) as [[ex ey] | e] eqn:Hu.
      * cbn [unpack2]. rewrite !validate_coordinates_spec, Hout.
        eexists; split; [reflexivity|].
        intros sx sy ex' ey' Hsx _. injection Hsx as <- <-.
        now rewrite Hout.
      * cbn [unpack2]. eexists; split; [reflexivity|].
        intros sx sy ex' ey' _ Hex. injection Hex as ->. discriminate Hu.
    + destruct (unpack2 s) as [[sx sy] | e] eqn:Hu.
      * cbn [unpack2]. rewrite !validate_coordinates_spec, Hout.
        destruct (out_of_bounds w h sx sy) eqn:Hs2.
        -- eexists; split; [reflexivity|].
           intros sx' sy' ex' ey' Hsx _. injection Hsx as ->.
           cbn [unpack2] in Hu. injection Hu as <- <-. now rewrite Hs2.
        -- eexists; split; [reflexivity|].
           intros sx' sy' ex' ey' Hsx Hex. injection Hsx as ->.
           cbn [unpack2] in Hu. injection Hu as <- <-.
           injection Hex as <- <-. now rewrite Hs2.
      * eexists; split; [reflexivity|].
        intros sx sy ex' ey' Hsx _. injection Hsx as ->. discriminate Hu.
Qed.

(** *** Exceptions of the device *)

Lemma all_return_app tr cs1 cs2 :
  all_return dev tr cs1 -> all_return dev (tr ++ cs1)%list cs2 ->
  all_return dev tr (cs1 ++ cs2)%list.
Proof.
  revert tr. induction cs1 as [| c cs1 IH]; intros tr H1 H2; cbn in *.
  - now rewrite app_nil_r in H2.
  - destruct H1 as [Hc H1]. split; [exact Hc|].
    apply IH; [exact H1|]. now rewrite <- app_assoc.
Qed.

Lemma all_return_split tr pre c post :
  all_return dev tr (pre ++ c :: post)%list ->
  dev_do dev (tr ++ pre)%list c = None.
Proof.
  revert tr. induction pre as [| a pre IH]; intros tr Hall; cbn in Hall.
  - rewrite app_nil_r. apply Hall.
  - destruct Hall as [_ Hall]. apply IH in Hall.
    now rewrite <- app_assoc in Hall.
Qed.

Lemma last_or_before {A} (pre : list A) c post cs0 c0 :
  (pre ++ c :: post = cs0 ++ [c0])%list ->
  (post = [] /\ pre = cs0 /\ c = c0) \/
  (exists post', cs0 = pre ++ c :: post')%list.
Proof.
  revert cs0. induction pre as [| a pre IH]; intros cs0 Heq.
  - destruct cs0 as [| b cs0]; cbn in Heq.
    + injection Heq as -> ->. now left.
    + injection Heq as -> _. right. now exists cs0.
  - destruct cs0 as [| b cs0]; cbn in Heq.
    + injection Heq as _ Heq. now destruct pre.
    + injection Heq as -> Heq. destruct (IH _ Heq) as [(-> & -> & ->) | [post' ->]].
      * now left.
      * right. now exists post'.
Qed.

Lemma guarded_ret {A} (a : A) : guarded dev (ret a).
Proof.
  intros tr r tr' [= <- <-]. exists []. split; [now rewrite app_nil_r|].
  left; exact I.
Qed.

Lemma guarded_lift {A} (r0 : result A) : guarded dev (lift r0).
Proof.
  intros tr r tr' [= <- <-]. exists []. split; [now rewrite app_nil_r|].
  left; exact I.
Qed.

Lemma guarded_call (c : dev_call) : guarded dev (call dev c).
Proof.
  intros tr r tr'. unfold call.
  destruct (dev_do dev tr c) as [m|] eqn:Hc; intros [= <- <-];
    exists [c]; (split; [reflexivity|]).
  - right. exists [], c, m. rewrite app_nil_r. cbn; auto.
  - left. cbn. auto.
Qed.

Lemma guarded_bind {A B} (m : H A) (k : A -> H B) :
  guarded dev m -> (forall a, guarded dev (k a)) -> guarded dev (bind m k).
Proof.
  intros Hm Hk tr r tr'. unfold bind.
  destruct (m tr) as [[a | e] tr1] eqn:Hrun;
    destruct (Hm _ _ _ Hrun) as (cs1 & -> & Hfit).
  - destruct Hfit as [Hall | (? & ? & ? & _ & _ & _ & Habs)]; [|discriminate].
    intros Hk'. destruct (Hk a _ _ _ Hk') as (cs2 & -> & Hfit2).
    exists (cs1 ++ cs2)%list. split; [now rewrite app_assoc|].
    destruct Hfit2 as [Hall2 | (cs0 & c & msg & -> & Hall2 & Hc & ->)].
    + left. now apply all_return_app.
    + right. exists (cs1 ++ cs0)%list, c, msg.
      split; [now rewrite app_assoc|].
      split; [now apply all_return_app|].
      split; [now rewrite app_assoc | reflexivity].
  - intros [= <- <-]. exists cs1. split; [reflexivity|].
    destruct Hfit as [Hall | (cs0 & c & msg & -> & Hall & Hc & He)].
    + now left.
    + right. exists cs0, c, msg. injection He as ->. auto.
Qed.

Ltac guard_steps :=
  repeat first
    [ apply guarded_ret
    | apply guarded_lift
    | apply guarded_call
    | apply guarded_bind; [|intros]
    | match goal with
      | |- guarded _ (match ?x with _ => _ end) => destruct x
      end ].

Lemma guarded_handlers (action : string) handler (p : params) :
  dict_get (action_handlers dev w h) action = Some handler ->
  guarded dev (handler p).
Proof.
  unfold action_handlers; cbn [dict_get].
  repeat match goal with
         | |- context [String.eqb action ?k] =>
             destruct (String.eqb action k); [intros [= <-] |]
         end; try discriminate.
  - unfold _screenshot. apply guarded_bind; [apply guarded_call|].
    intros _ tr r tr'. destruct (dev_capture dev tr); intros [= <- <-];
      (exists []; split; [now rewrite app_nil_r | left; exact I]).
  - unfold _left_click, at_coordinate. guard_steps.
  - unfold _right_click, at_coordinate. guard_steps.
  - unfold _middle_click, at_coordinate. guard_steps.
  - unfold _double_click, at_coordinate. guard_steps.
  - unfold _triple_click, at_coordinate. guard_steps.
  - unfold _left_click_drag. guard_steps.
  - unfold _mouse_move, at_coordinate. guard_steps.
  - unfold _type_text. guard_steps.
  - unfold _key_press. guard_steps.
  - unfold _scroll. guard_steps.
  - unfold _wait. guard_steps.
Qed.

(** C4. For a known action, whatever the parameters: the calls [execute]
    makes extend the trace, and if any of them raised an exception with text
    [m], that call is the last one made and the outcome is the error
    "Action '<name>' failed: <m>".  [execute] returns an outcome in every
    case, so no exception of the device leaves it. *)
Theorem device_exception_becomes_error
    (action : string) (p : params) (tr tr' : list dev_call) (o : outcome) :
  In action known_actions ->
  execute dev w h action p tr = (o, tr') ->
  exists cs,
    tr' = (tr ++ cs)%list /\
    forall pre c post m,
      cs = (pre ++ c :: post)%list ->
      dev_do dev (tr ++ pre)%list c = Some m ->
      post = [] /\ o = Error ("Action '" ++ action ++ "' failed: " ++ m).
Proof.
  intros Hin. unfold execute.
  destruct (dict_get (action_handlers dev w h) action) as [handler|] eqn:Hget.
  2: { now apply dict_get_known in Hget. }
  pose proof (guarded_handlers action handler p Hget) as Hg.
  destruct (handler p tr) as [r tr1] eqn:Hrun.
  destruct (Hg _ _ _ Hrun) as (cs & -> & Hfit).
  intros Hex. exists cs.
  assert (Htr : tr' = (tr ++ cs)%list) by (destruct r; now injection Hex).
  split; [exact Htr|].
  intros pre c post m -> Hraise.
  destruct Hfit as [Hall | (cs0 & c0 & msg & Heq & Hall & Hc & ->)].
  - apply all_return_split in Hall. congruence.
  - destruct (last_or_before _ _ _ _ _ Heq) as [(-> & -> & ->) | [post' ->]].
    + split; [reflexivity|].
      assert (msg = m) as -> by congruence.
      symmetry. exact (f_equal fst Hex).
    + apply all_return_split in Hall. congruence.
Qed.

(** *** Scrolling and keys *)

(** C9. A [scroll] with a pair inside the display and a direction other
    than up, down, left and right first moves the mouse there, which is the
    one device call made, and only then, the move having returned, answers
    with the error "Invalid scroll direction: <direction>". *)
Theorem scroll_moves_before_rejecting
    (p : params) (x y : Z) (d : string) (tr : list dev_call) :
  coordinate p = Given [x; y] ->
  scroll_direction p = Given d ->
  out_of_bounds w h x y = false ->
  ~ In d ["up"; "down"; "left"; "right"] ->
  snd (execute dev w h "scroll" p tr) = (tr ++ [MoveTo x y])%list /\
  (dev_do dev tr (MoveTo x y) = None ->
   fst (execute dev w h "scroll" p tr) = Error ("Invalid scroll direction: " ++ d)).
Proof.
  intros Hc Hd Hin Hdir.
  unfold execute; cbn [dict_get action_handlers String.eqb Ascii.eqb Bool.eqb].
  unfold _scroll. rewrite Hc, Hd.
  unfold bind, lift, unpack2. rewrite validate_coordinates_spec, Hin.
  unfold call. destruct (dev_do dev tr (MoveTo x y)) as [m|].
  - split; [reflexivity | discriminate].
  - repeat match goal with
           | |- context [String.eqb d ?k] =>
               destruct (String.eqb_spec d k) as [-> | _];
               [exfalso; apply Hdir; cbn [In]; tauto|]
           end.
    split; [reflexivity | reflexivity].
Qed.


End Dispatcher.

(** ** The orchestrator *)

Section Orchestrator.

Variable dev : device.
Variables w h : Z.
Variable max_iterations : Z.
Variable confirm_callback : option callback.
Variable client : Z -> list message -> api_reply.

Local Abbreviation process_block := (process_block dev w h confirm_callback).
Local Abbreviation process_from := (process_from dev w h confirm_callback).
Local Abbreviation _process_tool_calls := (_process_tool_calls dev w h confirm_callback).
Local Abbreviation iteration := (iteration dev w h max_iterations confirm_callback client).
Local Abbreviation loop := (loop dev w h max_iterations confirm_callback client).
Local Abbreviation run := (run dev w h max_iterations confirm_callback client).

Lemma process_from_app pre rest rs0 wd :
  process_from (pre ++ rest)%list rs0 wd =
  match process_from pre rs0 wd with
  | (Val rs, wd') => process_from rest rs wd'
  | (Exc e, wd') => (Exc e, wd')
  end.
Proof.
  revert rs0 wd. induction pre as [| b pre IH]; intros rs0 wd; [reflexivity|].
  cbn [app Agent.process_from].
  destruct (process_block b rs0 wd) as [[rs1 | e] wd1]; [apply IH | reflexivity].
Qed.

(** A block that is processed adds the result for its own identifier, if
    it is a tool use, and nothing otherwise. *)
Lemma process_block_ids b rs0 wd rs wd' :
  process_block b rs0 wd = (Val rs, wd') ->
  map tool_use_id rs = (map tool_use_id rs0 ++ request_ids [b])%list.
Proof.
  unfold Agent.process_block.
  destruct b as [t | id name i | ty]; cbn [request_ids];
    try (intros [= <- _]; now rewrite app_nil_r).
  destruct (negb (name =? "computer")).
  { intros [= <- _]. now rewrite map_app. }
  destruct (describe_action _ _) as [desc | e]; [|discriminate].
  cbv zeta. cbn [calls asked].
  destruct (execute dev w h _ _ (calls wd)) as [r tr].
  assert (Hid : map tool_use_id (rs0 ++ [_create_tool_result id r])
                = (map tool_use_id rs0 ++ [id])%list).
  { rewrite map_app. now destruct r. }
  destruct confirm_callback as [cb|].
  - destruct (negb (_ =? "screenshot")).
    + destruct (cb (asked wd) desc).
      * now intros [= <- _].
      * intros [= <- _]. now rewrite map_app.
      * discriminate.
    + now intros [= <- _].
  - now intros [= <- _].
Qed.

Lemma request_ids_cons b content :
  request_ids (b :: content) = (request_ids [b] ++ request_ids content)%list.
Proof. now destruct b. Qed.

(** The results of a batch that is processed to its end carry the
    identifiers of its requests, in order, whatever the confirmation did. *)
Lemma process_from_ids content rs0 wd rs wd' :
  process_from content rs0 wd = (Val rs, wd') ->
  map tool_use_id rs = (map tool_use_id rs0 ++ request_ids content)%list.
Proof.
  revert rs0 wd. induction content as [| b content IH]; intros rs0 wd.
  - intros [= <- _]. now rewrite app_nil_r.
  - cbn [Agent.process_from].
    destruct (process_block b rs0 wd) as [[rs1 | e] wd1] eqn:Hb; [|discriminate].
    intros Hrest. apply IH in Hrest. apply process_block_ids in Hb.
    rewrite Hrest, Hb, (request_ids_cons b content). now rewrite <- app_assoc.
Qed.

Lemma result_ids_app ms1 ms2 :
  result_ids (ms1 ++ ms2) = (result_ids ms1 ++ result_ids ms2)%list.
Proof.
  induction ms1 as [| m ms1 IH]; [reflexivity|].
  destruct m; cbn [app result_ids]; rewrite IH; [reflexivity | reflexivity|].
  now rewrite app_assoc.
Qed.




(** C1, as the code has it. When the confirmation quits on a request of a
    batch, the requests before it having been processed, the run stops at
    the user-quit exit and returns the last text seen.  The device calls of
    the earlier requests have been made, but the results collected for them
    are dropped with the batch: the conversation ends with the response and
    gains no result, neither for the earlier requests nor for the one
    quit on or the later ones. *)
Theorem abort_ends_run_without_results
    (cb : callback) (st : state) (remaining : nat) (stop : string)
    (pre post : list block) (id : string) (i : tool_input)
    (rs : list tool_result) (w1 : world) (desc : string) :
  confirm_callback = Some cb ->
  let content := (pre ++ ToolUseBlock id "computer" i :: post)%list in
  client (iterations st + 1)%Z (messages st) = ApiResponse stop content ->
  stop <> "end_turn" ->
  _process_tool_calls pre (env st) = (Val rs, w1) ->
  action_of i <> "screenshot" ->
  describe_action (action_of i) (action_params i) = Val desc ->
  cb (asked w1) desc = Quit ->
  let e := loop (S remaining) st in
  exit e = UserQuit /\
  returned e = Some (last_text content (final_response st)) /\
  messages (final e) = (messages st ++ [AssistantTurn content])%list /\
  result_ids (messages (final e)) = result_ids (messages st) /\
  map tool_use_id rs = request_ids pre /\
  calls (env (final e)) = calls w1.
Proof.
  intros Hcb content Hreply Hstop Hpre Hact Hdesc Hquit e.
  assert (Hp : _process_tool_calls content (env st)
               = (Exc StopIteration, mk_world (asked w1 ++ [desc])%list (calls w1))).
  { unfold Agent._process_tool_calls, content in *.
    rewrite process_from_app, Hpre. cbn [Agent.process_from].
    unfold Agent.process_block. cbn [String.eqb Ascii.eqb Bool.eqb negb].
    unfold action_of in *. rewrite Hdesc, Hcb. cbv zeta.
    destruct (String.eqb_spec (match action i with Some a => a | None => "" end)
                "screenshot") as [Heq | _]; [contradiction|].
    cbn [negb]. now rewrite Hquit. }
  assert (He : e = after_loop max_iterations UserQuit
                 (mk_state (messages st ++ [AssistantTurn content])%list
                    (iterations st + 1)%Z (last_text content (final_response st))
                    (S (requests st)) (stdout st ++ [UserQuitLine])%list
                    (mk_world (asked w1 ++ [desc])%list (calls w1)))).
  { unfold e. cbn [Agent.loop]. unfold Agent.iteration. rewrite Hreply.
    destruct (String.eqb_spec stop "end_turn") as [-> | _]; [contradiction|].
    now rewrite Hp. }
  rewrite He. cbn [after_loop exit returned final messages env calls].
  repeat split.
  - rewrite result_ids_app. cbn. now rewrite app_nil_r.
  - apply process_from_ids in Hpre. exact Hpre.
Qed.

(** C6, as the code has it. When the callback answers [False] for a request
    of the [computer] tool, the request gets the result "Action skipped by
    user" under its own identifier, not marked as an error, and the device
    calls are as they were.  With a callback that always answers [False], a
    batch of requests for actions other than [screenshot] makes no device
    call, and it gets exactly these results, one per request and in order,
    when the description of each request can be formed. *)
Theorem skip_yields_result_without_device (cb : callback) :
  confirm_callback = Some cb ->
  (forall id i rs wd desc,
      action_of i <> "screenshot" ->
      describe_action (action_of i) (action_params i) = Val desc ->
      cb (asked wd) desc = Skip ->
      process_block (ToolUseBlock id "computer" i) rs wd
      = (Val (rs ++ [skipped id])%list,
         mk_world (asked wd ++ [desc])%list (calls wd))) /\
  ((forall shown d, cb shown d = Skip) ->
   forall content wd,
     forallb confirmable content = true ->
     calls (snd (_process_tool_calls content wd)) = calls wd /\
     (forallb describable content = true ->
      fst (_process_tool_calls content wd)
      = Val (map skipped (request_ids content)))).
Proof.
  intros Hcb.
  assert (Hone : forall id i rs wd desc,
             action_of i <> "screenshot" ->
             describe_action (action_of i) (action_params i) = Val desc ->
             cb (asked wd) desc = Skip ->
             process_block (ToolUseBlock id "computer" i) rs wd
             = (Val (rs ++ [skipped id])%list,
                mk_world (asked wd ++ [desc])%list (calls wd))).
  { intros id i rs wd desc Hact Hdesc Hskip.
    unfold Agent.process_block. cbn [String.eqb Ascii.eqb Bool.eqb negb].
    unfold action_of in *. rewrite Hdesc, Hcb. cbv zeta.
    destruct (String.eqb_spec (match action i with Some a => a | None => "" end)
                "screenshot") as [Heq | _]; [contradiction|].
    cbn [negb]. now rewrite Hskip. }
  split; [exact Hone|].
  intros Hall content wd Hg.
  unfold Agent._process_tool_calls.
  change (map skipped (request_ids content))
    with (([] : list tool_result) ++ map skipped (request_ids content))%list.
  generalize (@nil tool_result) as rs0. revert wd.
  induction content as [| b content IH]; intros wd rs0.
  - cbn. now rewrite app_nil_r.
  - cbn [forallb] in Hg. apply andb_prop in Hg as [Hb Hg].
    cbn [Agent.process_from forallb].
    destruct b as [t | id name i | ty]; cbn [request_ids describable andb];
      try (unfold Agent.process_block; now apply IH).
    cbn [confirmable] in Hb. apply andb_prop in Hb as [Hn Ha].
    apply String.eqb_eq in Hn as ->.
    cbn [String.eqb Ascii.eqb Bool.eqb negb orb].
    assert (Hact : action_of i <> "screenshot").
    { intros Heq. rewrite Heq in Ha. discriminate. }
    destruct (describe_action (action_of i) (action_params i)) as [desc | e] eqn:Hdesc.
    + rewrite (Hone id i rs0 wd desc Hact Hdesc (Hall _ _)).
      destruct (IH Hg (mk_world (asked wd ++ [desc])%list (calls wd))
                  (rs0 ++ [skipped id])%list) as (Hcalls & Hres).
      split; [exact Hcalls|].
      intros Hd. apply andb_prop in Hd as [_ Hd].
      rewrite (Hres Hd). cbn [map]. now rewrite <- app_assoc.
    + assert (Hb : process_block (ToolUseBlock id "computer" i) rs0 wd = (Exc e, wd)).
      { unfold Agent.process_block. cbn [String.eqb Ascii.eqb Bool.eqb negb].
        unfold action_of in Hdesc. now rewrite Hdesc. }
      rewrite Hb. split; [reflexivity|].
      intros Hd. apply andb_prop in Hd as [Hw _].
      destruct (describe_action_defined _ _ Hw) as [desc Hdesc']. congruence.
Qed.





Lemma iteration_counter (st : state) :
  match iteration st with
  | inl st' => iterations st' = (iterations st + 1)%Z
  | inr e => exit e <> LoopEnded
  end.
Proof.
  unfold Agent.iteration.
  destruct (client _ _) as [m | stop content]; [discriminate|].
  destruct (stop =? "end_turn"); [discriminate|].
  destruct (_process_tool_calls content (env st)) as [[[| r rs] | e] wd'];
    try discriminate; try reflexivity.
  destruct e; discriminate.
Qed.

(** Where the loop is left by its condition, the counter has been raised
    once for each round. *)
Lemma loop_ended_counter (n : nat) (st : state) :
  exit (loop n st) = LoopEnded ->
  iterations (final (loop n st)) = (iterations st + Z.of_nat n)%Z.
Proof.
  revert st. induction n as [| n IH]; intros st.
  - intros _. cbn. lia.
  - cbn [Agent.loop]. pose proof (iteration_counter st) as Hit.
    destruct (iteration st) as [st' | e].
    + intros He. rewrite (IH st' He), Hit. lia.
    + intros He. contradiction.
Qed.

(** So [run] leaves its loop by the condition exactly when
    [iterations < max_iterations] has become false. *)
Lemma run_loop_ended (task : string) (wd : world) :
  exit (run task wd) = LoopEnded ->
  (max_iterations <= iterations (final (run task wd)))%Z.
Proof.
  intros He. unfold Agent.run in *.
  rewrite (loop_ended_counter _ _ He). cbn [iterations]. lia.
Qed.


End Orchestrator.

(** ** The statements at concrete inputs *)

(** The unknown action "frobnicate". *)
Lemma execute_unknown_action_witness :
  execute steady_device 1920 1080 "frobnicate" no_params []
  = (Error "Unknown action: frobnicate", []).
Proof.
  apply (execute_unknown_action steady_device 1920 1080 "frobnicate" no_params []).
  unfold known_actions. cbn [In]. intuition discriminate.
Defined.

(** The boundaries of a 1920 pixels wide display: -1 and 1920 are refused
    before any device call, 0 and 1919 are clicked. *)
Example left_click_boundaries :
  execute steady_device 1920 1080 "left_click" (at_point (-1) 5) []
  = (Error "X coordinate -1 is outside display bounds (0-1919)", []) /\
  execute steady_device 1920 1080 "left_click" (at_point 0 5) []
  = (Result "Left clicked at (0, 5)", [Click 0 5 "left"]) /\
  execute steady_device 1920 1080 "left_click" (at_point 1919 5) []
  = (Result "Left clicked at (1919, 5)", [Click 1919 5 "left"]) /\
  execute steady_device 1920 1080 "left_click" (at_point 1920 5) []
  = (Error "X coordinate 1920 is outside display bounds (0-1919)", []) /\
  execute steady_device 1920 1080 "left_click" (at_point 5 1080) []
  = (Error "Y coordinate 1080 is outside display bounds (0-1079)", []).
Proof. repeat split. Qed.

(** A scroll left of the display and without a direction is refused for
    the missing direction: the error names no axis and no range. *)
Lemma scroll_out_of_bounds_without_direction :
  out_of_bounds 1920 1080 (-1) 5 = true /\
  execute steady_device 1920 1080 "scroll" (at_point (-1) 5) []
  = (Error "scroll_direction is required for scroll", []) /\
  fst (execute steady_device 1920 1080 "scroll" (at_point (-1) 5) [])
  <> Error (offence 1920 1080 (-1) 5).
Proof. repeat split. discriminate. Qed.

Lemma out_of_bounds_rejected_witness :
  exists m,
    execute steady_device 1920 1080 "scroll" (scroll_at 1920 5 "down") []
    = (Error m, []) /\
    m = "X coordinate 1920 is outside display bounds (0-1919)".
Proof.
  destruct (proj1 (out_of_bounds_rejected steady_device 1920 1080 [])
              "scroll" (scroll_at 1920 5 "down") 1920 5)
    as (m & Hex & Hm).
  - unfold point_actions. cbn [In]. tauto.
  - reflexivity.
  - reflexivity.
  - exists m. split; [exact Hex|]. apply Hm. intros _. now exists "down".
Defined.

(** A click on a device whose clicks raise. *)
Lemma device_exception_becomes_error_witness :
  exists cs,
    [Click 10 20 "left"] = ([] ++ cs)%list /\
    forall pre c post m,
      cs = (pre ++ c :: post)%list ->
      dev_do faulty_device ([] ++ pre)%list c = Some m ->
      post = [] /\
      Error "Action 'left_click' failed: fail-safe triggered"
      = Error ("Action '" ++ "left_click" ++ "' failed: " ++ m).
Proof.
  apply (device_exception_becomes_error faulty_device 1920 1080 "left_click"
           (at_point 10 20) [] [Click 10 20 "left"]
           (Error "Action 'left_click' failed: fail-safe triggered")).
  - unfold known_actions. cbn [In]. tauto.
  - reflexivity.
Defined.

(** An empty coordinate list cannot be described: the description raises
    where the specification has it return a string. *)
Lemma describe_action_raises_on_empty_coordinate :
  describe_action "left_click"
    (mk_params (Given []) Absent Absent Absent Absent None None)
  = Exc (IndexError "list index out of range") /\
  ~ exists s, describe_action "left_click"
                (mk_params (Given []) Absent Absent Absent Absent None None)
              = Val s.
Proof. split; [reflexivity|]. intros [s Hs]. discriminate Hs. Qed.

Lemma describe_action_returns_witness :
  exists s,
    describe_action "middle_click" (at_point 10 20) = Val s /\
    (~ In "middle_click" described_actions -> s = "Unknown action: middle_click").
Proof.
  apply (describe_action_returns "middle_click" (at_point 10 20)).
  reflexivity.
Defined.

Example describe_action_samples :
  describe_action "left_click" (at_point 10 20) = Val "Left click at (10, 20)" /\
  describe_action "left_click" no_params = Val "Left click at (0, 0)" /\
  describe_action "key" (with_key "ctrl+c") = Val "Press key: ctrl+c" /\
  describe_action "scroll" no_params = Val "Scroll down by 3" /\
  describe_action "wait" no_params = Val "Wait 1.0 seconds" /\
  describe_action "triple_click" (at_point 10 20) = Val "Unknown action: triple_click".
Proof. repeat split. Qed.

(** A scroll "sideways" inside the display. *)
Lemma scroll_moves_before_rejecting_witness :
  snd (execute steady_device 1920 1080 "scroll" (scroll_at 10 20 "sideways") [])
  = [MoveTo 10 20] /\
  (dev_do steady_device [] (MoveTo 10 20) = None ->
   fst (execute steady_device 1920 1080 "scroll" (scroll_at 10 20 "sideways") [])
   = Error "Invalid scroll direction: sideways").
Proof.
  apply (scroll_moves_before_rejecting steady_device 1920 1080
           (scroll_at 10 20 "sideways") 10 20 "sideways" []).
  - reflexivity.
  - reflexivity.
  - reflexivity.
  - cbn [In]. intuition discriminate.
Defined.

(** "ctrl+c", in any case, presses command with c; a key alone is pressed
    alone. *)
Example key_press_samples :
  execute steady_device 1920 1080 "key" (with_key "ctrl+c") []
  = (Result "Pressed key: ctrl+c", [Hotkey ["command"; "c"]]) /\
  execute steady_device 1920 1080 "key" (with_key "Ctrl+Shift+T") []
  = (Result "Pressed key: Ctrl+Shift+T", [Hotkey ["command"; "shift"; "t"]]) /\
  execute steady_device 1920 1080 "key" (with_key "Return") []
  = (Result "Pressed key: Return", [Press "return"]).
Proof. repeat split. Qed.


(** A batch of three clicks, the user quitting at the second: the run
    stops at the user-quit exit, the first click has been made, and the
    conversation holds no result, where the specification has it hold the one for
    the first action. *)
Lemma abort_keeps_no_result :
  let e := run steady_device 1920 1080 10 (Some quit_on_second) batch_client
             "click three times" fresh_world in
  exit e = UserQuit /\
  calls (env (final e)) = [Click 10 10 "left"] /\
  messages (final e) = [UserTask "click three times"; AssistantTurn three_clicks] /\
  result_ids (messages (final e)) = [] /\
  result_ids (messages (final e)) <> ["toolu_1"].
Proof. repeat split. discriminate. Qed.

Lemma abort_ends_run_without_results_witness :
  let content := ([click_request "toolu_1" 10 10]
                  ++ click_request "toolu_2" 20 20
                  :: [click_request "toolu_3" 30 30])%list in
  let e := loop steady_device 1920 1080 10 (Some quit_on_second) batch_client 10
             (start_state "click three times") in
  exit e = UserQuit /\
  returned e = Some (last_text content "") /\
  messages (final e) = ([UserTask "click three times"] ++ [AssistantTurn content])%list /\
  result_ids (messages (final e)) = [] /\
  map tool_use_id
    [mk_tool_result "toolu_1" (TextContent "Left clicked at (10, 10)") false]
  = request_ids [click_request "toolu_1" 10 10] /\
  calls (env (final e)) = [Click 10 10 "left"].
Proof.
  apply (abort_ends_run_without_results steady_device 1920 1080 10
           (Some quit_on_second) batch_client quit_on_second
           (start_state "click three times") 9 "tool_use"
           [click_request "toolu_1" 10 10] [click_request "toolu_3" 30 30]
           "toolu_2" (mk_input (Some "left_click") (at_point 20 20))
           [mk_tool_result "toolu_1" (TextContent "Left clicked at (10, 10)") false]
           (mk_world ["Left click at (10, 10)"] [Click 10 10 "left"])
           "Left click at (20, 20)").
  - reflexivity.
  - reflexivity.
  - discriminate.
  - reflexivity.
  - discriminate.
  - reflexivity.
  - reflexivity.
Defined.



(** A declining user and a click with an empty coordinate list: the
    description raises before the user is asked, so the request gets no
    result, where the specification has every action get the skip result. *)
Lemma skip_not_reached_without_description :
  let request :=
    ToolUseBlock "toolu_1" "computer"
      (mk_input (Some "left_click")
         (mk_params (Given []) Absent Absent Absent Absent None None)) in
  _process_tool_calls steady_device 1920 1080 (Some always_skip)
    [request] fresh_world
  = (Exc (IndexError "list index out of range"), fresh_world) /\
  fst (_process_tool_calls steady_device 1920 1080 (Some always_skip)
         [request] fresh_world)
  <> Val [skipped "toolu_1"].
Proof. split; [reflexivity | discriminate]. Qed.

(** A batch of three clicks, all declined. *)
Lemma skip_yields_result_without_device_witness :
  calls (snd (_process_tool_calls steady_device 1920 1080 (Some always_skip)
                three_clicks fresh_world)) = [] /\
  (forallb describable three_clicks = true ->
   fst (_process_tool_calls steady_device 1920 1080 (Some always_skip)
          three_clicks fresh_world)
   = Val [skipped "toolu_1"; skipped "toolu_2"; skipped "toolu_3"]).
Proof.
  apply (proj2 (skip_yields_result_without_device steady_device 1920 1080
                  (Some always_skip) always_skip eq_refl)
           (fun _ _ => eq_refl) three_clicks fresh_world).
  reflexivity.
Defined.


(** * Further properties *)

(** ** The dispatcher: validation, parameters and device calls *)

Section DispatcherMore.

Variable dev : device.
Variables w h : Z.

(** X1. [_validate_coordinates] accepts a pair exactly when it lies in
    [0 <= x < display_width] and [0 <= y < display_height]; when x is out
    of range it is the X axis that is reported, whatever y is. *)
Theorem validate_coordinates_accepts (x y : Z) :
  (_validate_coordinates w h x y = None <-> (0 <= x < w /\ 0 <= y < h)%Z) /\
  (~ (0 <= x < w)%Z -> _validate_coordinates w h x y = Some (axis_error "X" x w)).
Proof.
  unfold _validate_coordinates, axis_error. split.
  - destruct (Z.leb_spec 0 x), (Z.ltb_spec x w), (Z.leb_spec 0 y), (Z.ltb_spec y h);
      cbn [andb negb]; split; intros Hv;
      first [discriminate Hv | reflexivity | lia | exfalso; lia].
  - intros Hn.
    destruct (Z.leb_spec 0 x), (Z.ltb_spec x w); cbn [andb negb];
      first [reflexivity | exfalso; apply Hn; lia].
Qed.

Lemma at_coordinate_in_bounds name act done (p : params) x y tr :
  coordinate p = Given [x; y] -> out_of_bounds w h x y = false ->
  at_coordinate dev w h name act done p tr =
  match dev_do dev tr (act x y) with
  | None => (Val (Result (done ++ point x y)), (tr ++ [act x y])%list)
  | Some m => (Exc (DeviceError m), (tr ++ [act x y])%list)
  end.
Proof.
  intros Hc Hin. unfold at_coordinate. rewrite Hc.
  unfold bind, lift, unpack2, call, ret.
  rewrite validate_coordinates_spec, Hin.
  now destruct (dev_do dev tr (act x y)).
Qed.

(** X2. A click or a mouse move at a pair inside the display makes exactly
    one device call, the primitive of that action at that pair.  When the
    call returns, the outcome is a report that ends with the pair; when it
    raises, the outcome is the failure of that action. *)
Theorem in_bounds_click_reaches_device
    (action : string) (p : params) (x y : Z) (c : dev_call) (tr : list dev_call) :
  click_call action x y = Some c ->
  coordinate p = Given [x; y] ->
  out_of_bounds w h x y = false ->
  snd (execute dev w h action p tr) = (tr ++ [c])%list /\
  (dev_do dev tr c = None ->
   exists label, fst (execute dev w h action p tr) = Result (label ++ point x y)) /\
  (forall m, dev_do dev tr c = Some m ->
   fst (execute dev w h action p tr)
   = Error ("Action '" ++ action ++ "' failed: " ++ m)).
Proof.
  unfold click_call. intros Hcall Hc Hin.
  repeat match type of Hcall with
         | context [String.eqb action ?k] =>
             destruct (String.eqb_spec action k) as [-> | _]
         end;
    try discriminate Hcall;
    injection Hcall as <-;
    unfold execute; cbn [dict_get action_handlers String.eqb Ascii.eqb Bool.eqb];
    unfold _left_click, _right_click, _middle_click, _double_click,
      _triple_click, _mouse_move;
    rewrite (at_coordinate_in_bounds _ _ _ p x y tr Hc Hin);
    match goal with
    | |- context [dev_do dev tr ?c] => destruct (dev_do dev tr c) as [m|]
    end;
    (split; [reflexivity|]; split;
     [ intros Hr; first [discriminate Hr | eexists; reflexivity]
     | intros m' Hr; first [discriminate Hr | now injection Hr as <-] ]).
Qed.

(** X3. When a parameter the handler requires is left out or is [None],
    [execute] answers with an error that says what is required, and makes
    no device call. *)
Theorem missing_parameter_rejected
    (action : string) (p : params) (tr : list dev_call) :
  missing_required action p = true ->
  exists m,
    execute dev w h action p tr = (Error m, tr) /\
    contains " required for " m = true.
Proof.
  unfold missing_required. cbn [existsb].
  by_action action; intros Hm; try discriminate Hm;
    unfold execute; cbn [dict_get action_handlers String.eqb Ascii.eqb Bool.eqb];
    unfold _left_click, _right_click, _middle_click, _double_click,
      _triple_click, _mouse_move, at_coordinate, _scroll, _left_click_drag,
      _type_text, _key_press;
    repeat match goal with
           | |- context [coordinate p] => destruct (coordinate p)
           | |- context [start_coordinate p] => destruct (start_coordinate p)
           | |- context [scroll_direction p] => destruct (scroll_direction p)
           | |- context [text p] => destruct (text p)
           | |- context [key p] => destruct (key p)
           end;
    try discriminate Hm;
    (eexists; split; [reflexivity | reflexivity]).
Qed.

(** X4. A coordinate list that is not a pair never reaches the device:
    for the actions that take one pair, [execute] answers with the failure
    of that action and makes no device call. *)
Theorem wrong_arity_rejected
    (action : string) (p : params) (l : list Z) (tr : list dev_call) :
  In action point_actions ->
  coordinate p = Given l ->
  List.length l <> 2%nat ->
  (action = "scroll" -> is_given (scroll_direction p) = true) ->
  exists m,
    execute dev w h action p tr
    = (Error ("Action '" ++ action ++ "' failed: " ++ m), tr).
Proof.
  intros Hin Hc Hlen Hdir.
  assert (Hu : exists m, unpack2 l = Exc (ValueError m)).
  { destruct l as [| a [| b [| c l]]]; cbn [unpack2]; eauto.
    now contradiction Hlen. }
  destruct Hu as [m Hu].
  unfold point_actions in Hin; cbn [In] in Hin.
  destruct Hin as [<- | [<- | [<- | [<- | [<- | [<- | [<- | []]]]]]]];
    unfold execute; cbn [dict_get action_handlers String.eqb Ascii.eqb Bool.eqb];
    unfold _left_click, _right_click, _middle_click, _double_click,
      _triple_click, _mouse_move, at_coordinate, _scroll;
    rewrite Hc;
    try (destruct (scroll_direction p);
         [discriminate (Hdir eq_refl) | discriminate (Hdir eq_refl) |]);
    unfold bind, lift; rewrite Hu; exists m; reflexivity.
Qed.

(** X5. A drag between two pairs inside the display first moves to the
    start and then, the move having returned, drags by the offsets that
    lead from the start to the end, so the drag ends on the end pair; these
    are the only device calls. *)
Theorem drag_lands_on_end
    (p : params) (sx sy ex ey : Z) (tr : list dev_call) :
  start_coordinate p = Given [sx; sy] ->
  coordinate p = Given [ex; ey] ->
  out_of_bounds w h sx sy = false ->
  out_of_bounds w h ex ey = false ->
  dev_do dev tr (MoveTo sx sy) = None ->
  exists dx dy,
    snd (execute dev w h "left_click_drag" p tr)
    = (tr ++ [MoveTo sx sy; Drag dx dy])%list /\
    (sx + dx = ex)%Z /\ (sy + dy = ey)%Z.
Proof.
  intros Hs Hc His Hie Hmove. exists (ex - sx)%Z, (ey - sy)%Z.
  split; [|lia].
  unfold execute; cbn [dict_get action_handlers String.eqb Ascii.eqb Bool.eqb].
  unfold _left_click_drag. rewrite Hs, Hc.
  unfold bind, lift, unpack2, call, ret.
  rewrite !validate_coordinates_spec, His, Hie, Hmove.
  destruct (dev_do dev _ (Drag _ _)); cbn [snd]; now rewrite <- app_assoc.
Qed.

Lemma take_length (n : nat) (s : string) :
  (String.length (take n s) <= n)%nat.
Proof.
  unfold take. revert s. induction n as [| n IH]; intros s.
  - destruct s; cbn; lia.
  - destruct s as [| c s]; cbn; [lia|]. specialize (IH s). lia.
Qed.

Lemma take_all (n : nat) (s : string) :
  (String.length s <= n)%nat -> take n s = s.
Proof.
  unfold take. revert s. induction n as [| n IH]; intros s Hlen.
  - destruct s; [reflexivity | cbn in Hlen; lia].
  - destruct s as [| c s]; [reflexivity|]. cbn in *. rewrite IH; [reflexivity | lia].
Qed.

Lemma append_length (a b : string) :
  String.length (a ++ b) = (String.length a + String.length b)%nat.
Proof. induction a as [| c a IH]; cbn; [reflexivity | now rewrite IH]. Qed.

Lemma append_empty (a : string) : a ++ "" = a.
Proof. induction a as [| c a IH]; cbn; [reflexivity | now rewrite IH]. Qed.

(** X6. [type] hands the whole text to the device in one call, however long
    it is; for an ASCII text the report shows the text in full up to 50
    characters and its first 50 characters followed by "..." beyond, so it
    never exceeds 60 characters. *)
Theorem type_writes_all_reports_start
    (p : params) (t : string) (tr : list dev_call) :
  text p = Given t ->
  ascii_only t = true ->
  snd (execute dev w h "type" p tr) = (tr ++ [Write t])%list /\
  (dev_do dev tr (Write t) = None ->
   exists m,
     fst (execute dev w h "type" p tr) = Result m /\
     (String.length m <= 60)%nat /\
     ((String.length t <= 50)%nat -> m = "Typed: " ++ t) /\
     ((50 < String.length t)%nat -> m = "Typed: " ++ take 50 t ++ "...")).
Proof.
  intros Ht _.
  unfold execute; cbn [dict_get action_handlers String.eqb Ascii.eqb Bool.eqb].
  unfold _type_text. rewrite Ht. unfold bind, call, ret.
  destruct (dev_do dev tr (Write t)) as [m|]; (split; [reflexivity|]);
    [discriminate|]. intros _.
  eexists. split; [reflexivity|].
  pose proof (take_length 50 t) as Htake. unfold len.
  destruct (Z.ltb_spec 50 (Z.of_nat (String.length t))) as [Hlong | Hshort].
  - split; [|split; [intros; lia | reflexivity]].
    change ("Typed: " ++ take 50 t ++ "...")
      with ("Typed: " ++ (take 50 t ++ "...")).
    rewrite !append_length. cbn [String.length]. lia.
  - split; [|split; [| intros; lia]].
    + rewrite !append_length. cbn [String.length]. lia.
    + intros _. rewrite append_empty, take_all by lia. reflexivity.
Qed.

(** X7. Opposite directions are one wheel with opposite amounts: inside
    the display, scrolling "down" by n makes the same device calls as
    scrolling "up" by -n, and "left" by n the same as "right" by -n, the
    mouse being moved to the pair first. *)
Theorem scroll_opposite_directions
    (p q : params) (x y n : Z) (tr : list dev_call) :
  coordinate p = Given [x; y] ->
  coordinate q = Given [x; y] ->
  out_of_bounds w h x y = false ->
  scroll_amount p = Some n ->
  scroll_amount q = Some (- n)%Z ->
  (scroll_direction p = Given "down" /\ scroll_direction q = Given "up") \/
  (scroll_direction p = Given "left" /\ scroll_direction q = Given "right") ->
  snd (execute dev w h "scroll" p tr) = snd (execute dev w h "scroll" q tr) /\
  (dev_do dev tr (MoveTo x y) = None ->
   exists c,
     (c = Scroll (- n)%Z \/ c = HScroll (- n)%Z) /\
     snd (execute dev w h "scroll" p tr) = (tr ++ [MoveTo x y; c])%list).
Proof.
  intros Hp Hq Hin Hn Hm Hdir.
  unfold execute; cbn [dict_get action_handlers String.eqb Ascii.eqb Bool.eqb].
  unfold _scroll. rewrite Hp, Hq, Hn, Hm.
  destruct Hdir as [[-> ->] | [-> ->]];
    cbn [String.eqb Ascii.eqb Bool.eqb];
    unfold bind, lift, unpack2, call, ret;
    rewrite validate_coordinates_spec, Hin;
    destruct (dev_do dev tr (MoveTo x y)) as [e|];
    try (split; [reflexivity | discriminate]).
  - destruct (dev_do dev _ (Scroll (- n))); cbn [snd];
      (split; [reflexivity|]; intros _; exists (Scroll (- n)%Z);
       split; [now left | now rewrite <- app_assoc]).
  - destruct (dev_do dev _ (HScroll (- n))); cbn [snd];
      (split; [reflexivity|]; intros _; exists (HScroll (- n)%Z);
       split; [now right | now rewrite <- app_assoc]).
Qed.

Lemma within_ret {A} (n : nat) (a : A) : within n (ret a).
Proof. intros tr. exists []. cbn. rewrite app_nil_r. split; [reflexivity | lia]. Qed.

Lemma within_bind_lift {A B} (n : nat) (r : result A) (k : A -> H B) :
  (forall a, within n (k a)) -> within n (bind (lift r) k).
Proof.
  intros Hk tr. unfold bind, lift. destruct r as [a | e]; [apply Hk|].
  exists []. cbn. rewrite app_nil_r. split; [reflexivity | lia].
Qed.

Lemma within_bind_call {B} (n : nat) (c : dev_call) (k : unit -> H B) :
  (forall u, within n (k u)) -> within (S n) (bind (call dev c) k).
Proof.
  intros Hk tr. unfold bind, call. destruct (dev_do dev tr c) as [m|].
  - exists [c]. cbn. split; [reflexivity | lia].
  - destruct (Hk tt (tr ++ [c])%list) as (cs & Hcs & Hlen).
    exists (c :: cs). rewrite Hcs, <- app_assoc. cbn. split; [reflexivity | lia].
Qed.

Ltac within_steps :=
  repeat first
    [ apply within_ret
    | apply within_bind_lift; intros
    | apply within_bind_call; intros
    | match goal with
      | |- within _ (match ?x with _ => _ end) => destruct x
      | |- within _ (bind (match ?x with _ => _ end) _) => destruct x
      | |- within _ (let r := _ in _) => cbv zeta
      end ].

Lemma within_handlers (action : string) handler (p : params) :
  dict_get (action_handlers dev w h) action = Some handler ->
  within 2 (handler p).
Proof.
  unfold action_handlers; cbn [dict_get].
  repeat match goal with
         | |- context [String.eqb action ?k] =>
             destruct (String.eqb action k); [intros [= <-] |]
         end; try discriminate.
  - unfold _screenshot. apply within_bind_call. intros _ tr.
    exists []. rewrite app_nil_r. split; [|cbn; lia].
    now destruct (dev_capture dev tr).
  - unfold _left_click, at_coordinate. within_steps.
  - unfold _right_click, at_coordinate. within_steps.
  - unfold _middle_click, at_coordinate. within_steps.
  - unfold _double_click, at_coordinate. within_steps.
  - unfold _triple_click, at_coordinate. within_steps.
  - unfold _left_click_drag. within_steps.
  - unfold _mouse_move, at_coordinate. within_steps.
  - unfold _type_text. within_steps.
  - unfold _key_press. within_steps.
  - unfold _scroll. within_steps.
  - unfold _wait. within_steps.
Qed.

(** X8. Whatever the action and the parameters, [execute] only appends to
    the trace of device calls, and appends at most two calls. *)
Theorem execute_at_most_two_calls
    (action : string) (p : params) (tr : list dev_call) :
  exists cs,
    snd (execute dev w h action p tr) = (tr ++ cs)%list /\
    (List.length cs <= 2)%nat.
Proof.
  unfold execute.
  destruct (dict_get (action_handlers dev w h) action) as [handler|] eqn:Hget.
  - destruct (within_handlers action handler p Hget tr) as (cs & Hcs & Hlen).
    exists cs. split; [|exact Hlen].
    destruct (handler p tr) as [[o | e] tr']; exact Hcs.
  - exists []. cbn. rewrite app_nil_r. split; [reflexivity | lia].
Qed.

End DispatcherMore.

(** ** Descriptions and handlers side by side *)

(** X9. [describe_action] has no case for two of the actions [execute]
    handles: on parameters it can read, an action known to [execute] is
    described as "Unknown action: <name>" exactly when it is [middle_click]
    or [triple_click]. *)
Theorem described_but_for_two (action : string) (p : params) :
  well_shaped action p = true ->
  (In action known_actions /\
   describe_action action p = Val ("Unknown action: " ++ action)) <->
  (action = "middle_click" \/ action = "triple_click").
Proof.
  intros Hw. split.
  - intros [Hk Hd]. unfold known_actions in Hk; cbn [In] in Hk.
    repeat (destruct Hk as [<- | Hk];
            [ first
                [ now left
                | now right
                | exfalso;
                  unfold describe_action in Hd;
                  cbn [String.eqb Ascii.eqb Bool.eqb] in Hd;
                  repeat match type of Hd with
                         | context [subscript2 ?a] =>
                             destruct (subscript2 a) as [[? ?] | ?]
                         | context [text p] => destruct (text p)
                         end;
                  cbn [String.append] in Hd; discriminate Hd ]
            | ]).
    contradiction.
  - intros [-> | ->]; (split; [unfold known_actions; cbn [In]; tauto | reflexivity]).
Qed.

(** X10. The description of a [type] action with an ASCII text shows the
    text in full up to 30 characters and its first 30 characters followed
    by "..." beyond, so what the user is asked to confirm never exceeds 41
    characters. *)
Theorem describe_type_preview (p : params) (t : string) :
  text p = Given t ->
  ascii_only t = true ->
  exists d,
    describe_action "type" p = Val d /\
    (String.length d <= 41)%nat /\
    ((String.length t <= 30)%nat -> d = "Type: '" ++ t ++ "'") /\
    ((30 < String.length t)%nat -> d = "Type: '" ++ take 30 t ++ "...'").
Proof.
  intros Ht _. unfold describe_action. cbn [String.eqb Ascii.eqb Bool.eqb].
  rewrite Ht. eexists. split; [reflexivity|].
  pose proof (take_length 30 t) as Htake. unfold len.
  destruct (Z.ltb_spec 30 (Z.of_nat (String.length t))) as [Hlong | Hshort].
  - split; [|split; [intros; lia|]].
    + rewrite !append_length. cbn [String.length]. lia.
    + intros _. cbn [String.append]. do 7 f_equal.
      generalize (take 30 t) as u. induction u as [| c u IH]; cbn; congruence.
  - split; [|split; [reflexivity | intros; lia]].
    rewrite !append_length. cbn [String.length]. lia.
Qed.

(** ** The orchestrator: batches, conversation and status *)

(** X11. [_create_tool_result] loses nothing: the identifier is kept, the
    result is marked as an error exactly for an error outcome, and two
    results are equal only for equal identifiers and equal outcomes. *)
Theorem create_tool_result_lossless (id id' : string) (r r' : outcome) :
  tool_use_id (_create_tool_result id r) = id /\
  is_error (_create_tool_result id r) = is_error_outcome r /\
  (_create_tool_result id r = _create_tool_result id' r' -> id = id' /\ r = r').
Proof.
  split; [now destruct r|]. split; [now destruct r|].
  destruct r, r'; cbn; intros Heq; inversion Heq; now subst.
Qed.

Lemma last_text_app (a b : list block) (f : string) :
  last_text (a ++ b) f = last_text b (last_text a f).
Proof.
  revert f. induction a as [| x a IH]; intros f; [reflexivity|].
  destruct x; cbn [app last_text]; apply IH.
Qed.

Lemma last_text_none (content : list block) (f : string) :
  forallb (fun b => negb (is_text b)) content = true ->
  last_text content f = f.
Proof.
  induction content as [| x content IH]; [reflexivity|].
  cbn [forallb]. intros Hn. apply andb_prop in Hn as [Hx Hn].
  destruct x; [discriminate Hx | |]; cbn [last_text]; now apply IH.
Qed.

(** X12. The text kept from a response is that of its last text block,
    whatever stands around it, and the text kept before when the response
    has no text block. *)
Theorem last_text_is_last (content : list block) (f : string) :
  (forallb (fun b => negb (is_text b)) content = true ->
   last_text content f = f) /\
  (forall pre t post,
      content = (pre ++ TextBlock t :: post)%list ->
      forallb (fun b => negb (is_text b)) post = true ->
      last_text content f = t).
Proof.
  split; [apply last_text_none|].
  intros pre t post -> Hpost.
  rewrite last_text_app. cbn [last_text]. now apply last_text_none.
Qed.

Section OrchestratorMore.

Variable dev : device.
Variables w h : Z.
Variable max_iterations : Z.
Variable confirm_callback : option callback.
Variable client : Z -> list message -> api_reply.

Local Abbreviation process_block := (process_block dev w h confirm_callback).
Local Abbreviation process_from := (process_from dev w h confirm_callback).
Local Abbreviation _process_tool_calls := (_process_tool_calls dev w h confirm_callback).
Local Abbreviation iteration := (iteration dev w h max_iterations confirm_callback client).
Local Abbreviation loop := (loop dev w h max_iterations confirm_callback client).
Local Abbreviation run := (run dev w h max_iterations confirm_callback client).

Lemma process_block_grows b rs0 wd rs wd' :
  process_block b rs0 wd = (Val rs, wd') ->
  exists added,
    rs = (rs0 ++ added)%list /\
    List.length added = List.length (request_ids [b]).
Proof.
  unfold Agent.process_block.
  destruct b as [t | id name i | ty]; cbn [request_ids List.length];
    try (intros [= <- _]; exists []; now rewrite app_nil_r).
  destruct (negb (name =? "computer")); [intros [= <- _]; eauto|].
  destruct (describe_action _ _) as [desc | e]; [|discriminate].
  cbv zeta. cbn [calls asked].
  destruct (execute dev w h _ _ (calls wd)) as [r tr].
  destruct confirm_callback as [cb|].
  - destruct (negb (_ =? "screenshot")).
    + destruct (cb (asked wd) desc); [| |discriminate]; intros [= <- _]; eauto.
    + intros [= <- _]; eauto.
  - intros [= <- _]; eauto.
Qed.

Lemma process_from_grows content rs0 wd rs wd' :
  process_from content rs0 wd = (Val rs, wd') ->
  exists added,
    rs = (rs0 ++ added)%list /\
    List.length added = List.length (request_ids content).
Proof.
  revert rs0 wd. induction content as [| b content IH]; intros rs0 wd.
  - intros [= <- _]. exists []. now rewrite app_nil_r.
  - cbn [Agent.process_from].
    destruct (process_block b rs0 wd) as [[rs1 | e] wd1] eqn:Hb; [|discriminate].
    intros Hrest. apply IH in Hrest as (added2 & -> & Hlen2).
    apply process_block_grows in Hb as (added1 & -> & Hlen1).
    exists (added1 ++ added2)%list. rewrite <- app_assoc. split; [reflexivity|].
    rewrite (request_ids_cons b content), !length_app. lia.
Qed.

Lemma process_block_foreign id name i rs0 wd :
  name <> "computer" ->
  process_block (ToolUseBlock id name i) rs0 wd
  = (Val (rs0 ++ [mk_tool_result id (TextContent ("Unknown tool: " ++ name)) true])%list,
     wd).
Proof.
  intros Hname. unfold Agent.process_block.
  destruct (String.eqb_spec name "computer") as [Heq | _]; [contradiction|].
  reflexivity.
Qed.

(** X13. A tool use of any tool but [computer] is answered, under its own
    identifier, with the error "Unknown tool: <name>": nobody is asked and
    no device call is made for it, whatever the callback, and in every
    batch that is processed to its end this error is the result at the
    place of that tool use among the requests, whatever the other blocks
    of the response are. *)
Theorem foreign_tools_reported
    (pre post : list block) (id name : string) (i : tool_input) :
  name <> "computer" ->
  (forall rs0 wd,
      process_block (ToolUseBlock id name i) rs0 wd
      = (Val (rs0 ++ [mk_tool_result id (TextContent ("Unknown tool: " ++ name)) true])%list,
         wd)) /\
  (forall wd rs wd',
      _process_tool_calls (pre ++ ToolUseBlock id name i :: post)%list wd
      = (Val rs, wd') ->
      nth_error rs (List.length (request_ids pre))
      = Some (mk_tool_result id (TextContent ("Unknown tool: " ++ name)) true)).
Proof.
  intros Hname. split; [intros; now apply process_block_foreign|].
  intros wd rs wd'. unfold Agent._process_tool_calls.
  rewrite process_from_app.
  destruct (process_from pre [] wd) as [[rs1 | e] w1] eqn:Hpre; [|discriminate].
  apply process_from_grows in Hpre as (added & -> & Hlen). cbn [app] in *.
  cbn [Agent.process_from]. rewrite (process_block_foreign id name i added w1 Hname).
  intros Hrest. apply process_from_grows in Hrest as (rest & -> & _).
  rewrite <- Hlen, <- app_assoc. cbn [app].
  rewrite nth_error_app2 by lia. now rewrite Nat.sub_diag.
Qed.

(** What [execute] leaves of the trace, as far as the batch needs it. *)
Lemma execute_extends action (p : params) tr :
  exists cs,
    snd (execute dev w h action p tr) = (tr ++ cs)%list /\
    (List.length cs <= 2)%nat.
Proof.
  unfold execute.
  destruct (dict_get (action_handlers dev w h) action) as [handler|] eqn:Hget.
  - destruct (within_handlers dev w h action handler p Hget tr) as (cs & Hcs & Hlen).
    exists cs. split; [|exact Hlen].
    destruct (handler p tr) as [[o | e] tr']; exact Hcs.
  - exists []. cbn. rewrite app_nil_r. split; [reflexivity | lia].
Qed.

Lemma process_block_extends b rs0 wd :
  exists a c,
    asked (snd (process_block b rs0 wd)) = (asked wd ++ a)%list /\
    calls (snd (process_block b rs0 wd)) = (calls wd ++ c)%list /\
    (List.length a <= shown_count [b])%nat /\
    (List.length c <= 2 * List.length (request_ids [b]))%nat /\
    (confirm_callback = None -> a = []).
Proof.
  assert (Hnil : exists a c : list _,
             asked wd = (asked wd ++ a)%list /\ calls wd = (calls wd ++ c)%list /\
             (List.length a <= shown_count [b])%nat /\
             (List.length c <= 2 * List.length (request_ids [b]))%nat /\
             (confirm_callback = None -> a = [])).
  { exists [], []. rewrite !app_nil_r. cbn [List.length]. repeat split; lia. }
  unfold Agent.process_block.
  destruct b as [t | id name i | ty]; [exact Hnil | | exact Hnil].
  destruct (String.eqb_spec name "computer") as [-> | Hname]; cbn [negb];
    [|exact Hnil].
  destruct (describe_action _ _) as [desc | e]; [|exact Hnil].
  cbv zeta. cbn [shown_count request_ids List.length].
  cbn [String.eqb Ascii.eqb Bool.eqb andb]. unfold action_of.
  set (act := match action i with Some a => a | None => "" end).
  destruct (execute_extends act (action_params i) (calls wd)) as (cs & Hcs & Hlen).
  destruct (execute dev w h act (action_params i) (calls wd)) as [r tr] eqn:Hex.
  cbn [snd] in Hcs. subst tr.
  destruct confirm_callback as [cb|].
  - destruct (negb (act =? "screenshot")).
    + destruct (cb (asked wd) desc); cbn [calls asked snd].
      * rewrite Hex. cbn [calls asked snd].
        exists [desc], cs. repeat split; cbn [List.length]; try lia. discriminate.
      * exists [desc], []. rewrite app_nil_r.
        repeat split; cbn [List.length]; try lia. discriminate.
      * exists [desc], []. rewrite app_nil_r.
        repeat split; cbn [List.length]; try lia. discriminate.
    + cbn [calls asked snd]. exists [], cs. rewrite app_nil_r.
      repeat split; cbn [List.length]; try lia.
  - cbn [calls asked snd]. exists [], cs. rewrite app_nil_r.
    repeat split; cbn [List.length]; lia.
Qed.

Lemma shown_count_cons b content :
  shown_count (b :: content) = (shown_count [b] + shown_count content)%nat.
Proof.
  destruct b as [t | id name i | ty]; cbn [shown_count]; try reflexivity.
  destruct ((name =? "computer") && negb (action_of i =? "screenshot"))%bool;
    reflexivity.
Qed.

Lemma process_from_extends content rs0 wd :
  exists a c,
    asked (snd (process_from content rs0 wd)) = (asked wd ++ a)%list /\
    calls (snd (process_from content rs0 wd)) = (calls wd ++ c)%list /\
    (List.length a <= shown_count content)%nat /\
    (List.length c <= 2 * List.length (request_ids content))%nat /\
    (confirm_callback = None -> a = []).
Proof.
  revert rs0 wd. induction content as [| b content IH]; intros rs0 wd.
  - exists [], []. cbn. rewrite !app_nil_r. repeat split; lia.
  - destruct (process_block_extends b rs0 wd) as (a1 & c1 & Ha1 & Hc1 & Hla1 & Hlc1 & Hn1).
    cbn [Agent.process_from].
    rewrite (shown_count_cons b content), (request_ids_cons b content), length_app.
    destruct (process_block b rs0 wd) as [[rs1 | e] wd1]; cbn [snd] in *.
    + destruct (IH rs1 wd1) as (a2 & c2 & Ha2 & Hc2 & Hla2 & Hlc2 & Hn2).
      exists (a1 ++ a2)%list, (c1 ++ c2)%list.
      rewrite Ha2, Hc2, Ha1, Hc1, !app_assoc, !length_app.
      repeat split; try lia.
      intros Hnone. now rewrite (Hn1 Hnone), (Hn2 Hnone).
    + exists a1, c1. repeat split; trivial; lia.
Qed.

(** X14. Processing a batch only adds to what the user was asked and to
    the device calls made: at most one question for each request that goes
    through the confirmation, none at all without a callback, and at most
    two device calls for each request. *)
Theorem batch_extends_world (content : list block) (wd : world) :
  exists a c,
    asked (snd (_process_tool_calls content wd)) = (asked wd ++ a)%list /\
    calls (snd (_process_tool_calls content wd)) = (calls wd ++ c)%list /\
    (List.length a <= shown_count content)%nat /\
    (List.length c <= 2 * List.length (request_ids content))%nat /\
    (confirm_callback = None -> a = []).
Proof. apply process_from_extends. Qed.

Lemma process_from_screenshots content rs0 wd :
  forallb screenshot_block content = true ->
  exists rs,
    process_from content rs0 wd
    = (Val (rs0 ++ rs)%list,
       mk_world (asked wd)
         (calls wd ++ repeat Screencapture (List.length content))%list) /\
    map tool_use_id rs = request_ids content.
Proof.
  revert rs0 wd. induction content as [| b content IH]; intros rs0 wd Hs.
  - exists []. cbn. rewrite !app_nil_r. now destruct wd.
  - cbn [forallb] in Hs. apply andb_prop in Hs as [Hb Hs].
    destruct b as [t | id name i | ty]; try discriminate Hb.
    cbn [screenshot_block] in Hb. apply andb_prop in Hb as [Hn Ha].
    apply String.eqb_eq in Hn as ->. apply String.eqb_eq in Ha.
    unfold action_of in Ha.
    cbn [Agent.process_from Agent.process_block String.eqb Ascii.eqb Bool.eqb negb].
    rewrite Ha. cbv zeta.
    change (describe_action "screenshot" (action_params i))
      with (@Val string "Take a screenshot").
    cbn [String.eqb Ascii.eqb Bool.eqb negb].
    assert (Hex : exists r,
               execute dev w h "screenshot" (action_params i) (calls wd)
               = (r, (calls wd ++ [Screencapture])%list)).
    { unfold execute; cbn [dict_get action_handlers String.eqb Ascii.eqb Bool.eqb].
      unfold _screenshot, bind, call.
      destruct (dev_do dev (calls wd) Screencapture); [eauto|].
      destruct (dev_capture dev _); eauto. }
    destruct Hex as [r Hex].
    assert (Hblock :
              (let '(r0, tr) :=
                 execute dev w h "screenshot" (action_params i) (calls wd) in
               (Val (rs0 ++ [_create_tool_result id r0])%list,
                mk_world (asked wd) tr))
              = (Val (rs0 ++ [_create_tool_result id r])%list,
                 mk_world (asked wd) (calls wd ++ [Screencapture])%list)).
    { now rewrite Hex. }
    destruct confirm_callback as [cb|]; rewrite Hblock;
      destruct (IH (rs0 ++ [_create_tool_result id r])%list
                  (mk_world (asked wd) (calls wd ++ [Screencapture])%list) Hs)
        as (rs & Hrun & Hids);
      exists (_create_tool_result id r :: rs);
      rewrite Hrun; cbn [asked calls List.length repeat map request_ids];
      rewrite <- !app_assoc; cbn [app];
      (split; [reflexivity|]);
      rewrite Hids; now destruct r.
Qed.

(** X15. Screenshots are never put to the user: whatever the callback,
    even one that would quit, a batch of screenshot requests is processed
    to its end with one capture for each request and one result for each
    identifier, and the user is asked nothing. *)
Theorem screenshots_bypass_confirmation (content : list block) (wd : world) :
  forallb screenshot_block content = true ->
  exists rs,
    _process_tool_calls content wd
    = (Val rs,
       mk_world (asked wd)
         (calls wd ++ repeat Screencapture (List.length content))%list) /\
    map tool_use_id rs = request_ids content.
Proof.
  intros Hs. unfold Agent._process_tool_calls.
  destruct (process_from_screenshots content [] wd Hs) as (rs & Hrun & Hids).
  exists rs. now split.
Qed.

Lemma describe_action_exceptions action (p : params) e :
  describe_action action p = Exc e ->
  exists m, e = IndexError m \/ e = TypeError m.
Proof.
  unfold describe_action.
  assert (Hsub : forall a e0, subscript2 a = Exc e0 ->
                 exists m, e0 = IndexError m \/ e0 = TypeError m).
  { intros a e0. destruct a as [| | [| x [| y l]]]; cbn; intros [= <-]; eauto. }
  repeat match goal with
         | |- context [String.eqb action ?k] => destruct (String.eqb action k)
         end;
    try discriminate;
    repeat match goal with
           | |- context [subscript2 ?a] =>
               let Hs := fresh "Hs" in
               destruct (subscript2 a) as [[? ?] | ?] eqn:Hs
           | |- context [text p] => destruct (text p)
           end;
    try discriminate;
    intros [= <-]; eauto.
Qed.

Lemma process_block_exceptions b rs0 wd e wd' :
  process_block b rs0 wd = (Exc e, wd') ->
  (e = StopIteration /\ confirm_callback <> None) \/
  (exists m, e = IndexError m \/ e = TypeError m).
Proof.
  unfold Agent.process_block.
  destruct b as [t | id name i | ty]; try discriminate.
  destruct (negb (name =? "computer")); [discriminate|].
  destruct (describe_action _ _) as [desc | e0] eqn:Hd.
  - cbv zeta. cbn [calls asked].
    destruct (execute dev w h _ _ (calls wd)) as [r tr].
    destruct confirm_callback as [cb|]; [|discriminate].
    destruct (negb (_ =? "screenshot")); [|discriminate].
    destruct (cb (asked wd) desc); try discriminate.
    intros [= <- _]. left. split; [reflexivity | discriminate].
  - intros [= <- _]. right. eapply describe_action_exceptions; eassumption.
Qed.

Lemma process_from_exceptions content rs0 wd e wd' :
  process_from content rs0 wd = (Exc e, wd') ->
  (e = StopIteration /\ confirm_callback <> None) \/
  (exists m, e = IndexError m \/ e = TypeError m).
Proof.
  revert rs0 wd. induction content as [| b content IH]; intros rs0 wd;
    [discriminate|].
  cbn [Agent.process_from].
  destruct (process_block b rs0 wd) as [[rs1 | e1] wd1] eqn:Hb; [apply IH|].
  intros [= <- <-]. eapply process_block_exceptions; eassumption.
Qed.

Lemma iteration_uncaught st e0 e :
  iteration st = inr e -> exit e = Uncaught e0 ->
  exists m, e0 = IndexError m \/ e0 = TypeError m.
Proof.
  unfold Agent.iteration.
  destruct (client _ _) as [m | stop content]; [intros [= <-]; discriminate|].
  destruct (stop =? "end_turn"); [intros [= <-]; discriminate|].
  destruct (_process_tool_calls content (env st)) as [[[| r rs] | e1] wd'] eqn:Hp;
    try (intros [= <-]; discriminate).
  apply process_from_exceptions in Hp.
  destruct e1; intros [= <-]; try discriminate; intros [= <-];
    destruct Hp as [[Hs _] | Hp]; try discriminate Hs; exact Hp.
Qed.

Lemma iteration_user_quit st e :
  iteration st = inr e -> exit e = UserQuit -> confirm_callback <> None.
Proof.
  unfold Agent.iteration.
  destruct (client _ _) as [m | stop content]; [intros [= <-]; discriminate|].
  destruct (stop =? "end_turn"); [intros [= <-]; discriminate|].
  destruct (_process_tool_calls content (env st)) as [[[| r rs] | e1] wd'] eqn:Hp;
    try (intros [= <-]; discriminate).
  apply process_from_exceptions in Hp.
  destruct e1; intros [= <-]; try discriminate; intros _;
    destruct Hp as [[_ Hc] | [m [Hm | Hm]]]; try discriminate; exact Hc.
Qed.

(** X16. With a callback that keeps to what the agent documents for it (it
    returns [True] or [False], or raises [StopIteration]), no fault of the
    device leaves [run]: the only exceptions that escape it are the index
    and type errors of a description that cannot be formed.  And a run
    stops at the user-quit exit only when there is a callback. *)
Theorem only_description_errors_escape (task : string) (wd : world) :
  (forall e0, exit (run task wd) = Uncaught e0 ->
              exists m, e0 = IndexError m \/ e0 = TypeError m) /\
  (exit (run task wd) = UserQuit -> confirm_callback <> None).
Proof.
  unfold Agent.run.
  generalize (mk_state [UserTask task] 0 "" 0 [] wd) as st.
  induction (Z.to_nat max_iterations) as [| n IH]; intros st.
  - cbn. split; [intros e0|]; discriminate.
  - cbn [Agent.loop]. destruct (iteration st) as [st' | e] eqn:Hit; [apply IH|].
    split.
    + intros e0. now apply (iteration_uncaught st).
    + now apply (iteration_user_quit st).
Qed.

End OrchestratorMore.

(** ** The orchestrator: the whole run *)

Lemma complete_snoc body content rs :
  complete body ->
  rs <> [] ->
  map tool_use_id rs = request_ids content ->
  complete (body ++ [AssistantTurn content; UserResults rs])%list.
Proof.
  intros Hb Hrs Hids. induction Hb as [| c0 rs0 rest H0 H1 _ IH]; cbn [app].
  - constructor; [exact Hrs | exact Hids | constructor].
  - constructor; [exact H0 | exact H1 | exact IH].
Qed.

Lemma responses_app ms1 ms2 :
  responses (ms1 ++ ms2) = (responses ms1 + responses ms2)%nat.
Proof.
  induction ms1 as [| m ms1 IH]; [reflexivity|].
  destruct m; cbn [app responses]; rewrite IH; reflexivity.
Qed.

Section WholeRun.

Variable dev : device.
Variables w h : Z.
Variable max_iterations : Z.
Variable confirm_callback : option callback.
Variable client : Z -> list message -> api_reply.

Local Abbreviation _process_tool_calls := (_process_tool_calls dev w h confirm_callback).
Local Abbreviation iteration := (iteration dev w h max_iterations confirm_callback client).
Local Abbreviation loop := (loop dev w h max_iterations confirm_callback client).
Local Abbreviation run := (run dev w h max_iterations confirm_callback client).

(** The line for the reached maximum, when the counter has reached it. *)
Let max_line (i : Z) : list line :=
  if (max_iterations <=? i)%Z then [MaxIterationsLine max_iterations] else [].

(** What one round does to the conversation, the counters and the output. *)
Lemma iteration_facts (st : state) :
  match iteration st with
  | inl st' =>
      (exists content rs,
          messages st' = (messages st ++ [AssistantTurn content; UserResults rs])%list /\
          rs <> [] /\ map tool_use_id rs = request_ids content) /\
      stdout st' = stdout st /\
      iterations st' = (iterations st + 1)%Z /\
      requests st' = S (requests st)
  | inr e =>
      iterations (final e) = (iterations st + 1)%Z /\
      requests (final e) = S (requests st) /\
      match exit e with
      | LoopEnded => False
      | ApiError =>
          messages (final e) = messages st /\
          exists m, stdout (final e) = (stdout st ++ [ApiErrorLine m])%list /\
                    returned e = Some ("API Error: " ++ m)
      | Uncaught _ =>
          (exists content,
              messages (final e) = (messages st ++ [AssistantTurn content])%list) /\
          stdout (final e) = stdout st /\ returned e = None
      | how =>
          (exists content,
              messages (final e) = (messages st ++ [AssistantTurn content])%list) /\
          stdout (final e)
          = (stdout st ++ exit_line how ++ max_line (iterations st + 1))%list /\
          returned e = Some (final_response (final e))
      end
  end.
Proof.
  unfold Agent.iteration, max_line.
  destruct (client _ _) as [m | stop content].
  { cbn. repeat split. exists m. now split. }
  destruct (stop =? "end_turn").
  { cbn [after_loop final exit returned iterations requests messages stdout
         final_response exit_line].
    repeat split; eauto.
    destruct (max_iterations <=? iterations st + 1)%Z;
      now rewrite <- ?app_assoc, ?app_nil_r. }
  destruct (_process_tool_calls content (env st)) as [[[| r rs] | e] wd'] eqn:Hp.
  - cbn [after_loop final exit returned iterations requests messages stdout
         final_response exit_line].
    repeat split; eauto.
    destruct (max_iterations <=? iterations st + 1)%Z;
      now rewrite <- ?app_assoc, ?app_nil_r.
  - cbn [messages stdout iterations requests]. repeat split.
    exists content, (r :: rs). rewrite <- app_assoc. cbn [app].
    split; [reflexivity|]. split; [discriminate|].
    apply (process_from_ids dev w h confirm_callback) in Hp. exact Hp.
  - destruct e;
      cbn [after_loop final exit returned iterations requests messages stdout
           final_response exit_line];
      repeat split; eauto.
    destruct (max_iterations <=? iterations st + 1)%Z;
      now rewrite <- ?app_assoc, ?app_nil_r.
Qed.

(** X17. The conversation a run leaves is the task followed by completed
    rounds, each a response and then a non-empty turn of results for exactly
    its requests, in order; it ends there when the budget ran out or a
    request failed, and with one more response, left without results, at
    every other exit. *)
Theorem conversation_alternates (task : string) (wd : world) :
  exists body,
    complete body /\
    match exit (run task wd) with
    | LoopEnded | ApiError =>
        messages (final (run task wd)) = UserTask task :: body
    | _ =>
        exists content,
          messages (final (run task wd))
          = (UserTask task :: body ++ [AssistantTurn content])%list
    end.
Proof.
  unfold Agent.run.
  assert (Hinv : forall n st body,
             messages st = UserTask task :: body -> complete body ->
             exists body',
               complete body' /\
               match exit (loop n st) with
               | LoopEnded | ApiError =>
                   messages (final (loop n st)) = UserTask task :: body'
               | _ =>
                   exists content,
                     messages (final (loop n st))
                     = (UserTask task :: body' ++ [AssistantTurn content])%list
               end).
  { induction n as [| n IH]; intros st body Hm Hb.
    - exists body. split; [exact Hb|]. exact Hm.
    - cbn [Agent.loop]. pose proof (iteration_facts st) as Hit.
      destruct (iteration st) as [st' | e].
      + destruct Hit as ((content & rs & Hm' & Hrs & Hids) & _).
        apply (IH st' (body ++ [AssistantTurn content; UserResults rs])%list).
        * now rewrite Hm', Hm.
        * now apply complete_snoc.
      + destruct Hit as (_ & _ & Hexit). exists body. split; [exact Hb|].
        destruct (exit e); try contradiction;
          try (destruct Hexit as ((content & Hm') & _); exists content;
               now rewrite Hm', Hm).
        destruct Hexit as (Hm' & _). now rewrite Hm'. }
  apply (Hinv _ _ []); [reflexivity | constructor].
Qed.

(** X18. A run counts what it does: the counter of iterations equals the
    number of requests made, and every request is recorded as one response
    in the conversation, but for the one that failed when the run stopped
    on a failure of the transport. *)
Theorem requests_are_recorded (task : string) (wd : world) :
  iterations (final (run task wd)) = Z.of_nat (requests (final (run task wd))) /\
  match exit (run task wd) with
  | ApiError => S (responses (messages (final (run task wd))))
  | _ => responses (messages (final (run task wd)))
  end = requests (final (run task wd)).
Proof.
  unfold Agent.run.
  assert (Hinv : forall n st,
             iterations st = Z.of_nat (requests st) ->
             responses (messages st) = requests st ->
             iterations (final (loop n st)) = Z.of_nat (requests (final (loop n st))) /\
             match exit (loop n st) with
             | ApiError => S (responses (messages (final (loop n st))))
             | _ => responses (messages (final (loop n st)))
             end = requests (final (loop n st))).
  { induction n as [| n IH]; intros st Hi Hr.
    - cbn. now split.
    - cbn [Agent.loop]. pose proof (iteration_facts st) as Hit.
      destruct (iteration st) as [st' | e].
      + destruct Hit as ((content & rs & Hm' & _) & _ & Hi' & Hr').
        apply IH.
        * rewrite Hi', Hr', Hi. lia.
        * rewrite Hm', responses_app, Hr', Hr. cbn. lia.
      + destruct Hit as (Hi' & Hr' & Hexit).
        split; [rewrite Hi', Hr', Hi; lia|].
        destruct (exit e); try contradiction;
          try (destruct Hexit as ((content & Hm') & _);
               rewrite Hm', responses_app, Hr', Hr; cbn; lia).
        destruct Hexit as (Hm' & _). now rewrite Hm', Hr', Hr. }
  apply Hinv; reflexivity.
Qed.

(** X19. What a run prints as status: after a failure of the transport the
    error alone, which is also what it returns; nothing when an exception
    leaves it; otherwise the line of the [break] taken, if any, followed by
    the line for the reached maximum exactly when all the rounds of the
    budget were used, also when the task completed in the last one. *)
Theorem status_lines (task : string) (wd : world) :
  match exit (run task wd) with
  | ApiError =>
      exists m, stdout (final (run task wd)) = [ApiErrorLine m] /\
                returned (run task wd) = Some ("API Error: " ++ m)
  | Uncaught _ =>
      stdout (final (run task wd)) = [] /\ returned (run task wd) = None
  | how =>
      stdout (final (run task wd))
      = (exit_line how ++
         if Nat.eqb (requests (final (run task wd))) (Z.to_nat max_iterations)
         then [MaxIterationsLine max_iterations] else [])%list /\
      returned (run task wd) = Some (final_response (final (run task wd)))
  end.
Proof.
  unfold Agent.run.
  assert (Hinv : forall n st,
             stdout st = [] ->
             iterations st = Z.of_nat (requests st) ->
             (requests st + n)%nat = Z.to_nat max_iterations ->
             match exit (loop n st) with
             | ApiError =>
                 exists m, stdout (final (loop n st)) = [ApiErrorLine m] /\
                           returned (loop n st) = Some ("API Error: " ++ m)
             | Uncaught _ =>
                 stdout (final (loop n st)) = [] /\ returned (loop n st) = None
             | how =>
                 stdout (final (loop n st))
                 = (exit_line how ++
                    if Nat.eqb (requests (final (loop n st))) (Z.to_nat max_iterations)
                    then [MaxIterationsLine max_iterations] else [])%list /\
                 returned (loop n st) = Some (final_response (final (loop n st)))
             end).
  { induction n as [| n IH]; intros st Ho Hi Hn.
    - cbn [Agent.loop after_loop exit final stdout requests returned
           final_response exit_line app].
      rewrite Ho, Hi. rewrite Nat.add_0_r in Hn. rewrite Hn, Nat.eqb_refl.
      destruct (Z.leb_spec max_iterations (Z.of_nat (Z.to_nat max_iterations)));
        [now split | lia].
    - cbn [Agent.loop]. pose proof (iteration_facts st) as Hit.
      destruct (iteration st) as [st' | e].
      + destruct Hit as (_ & Ho' & Hi' & Hr').
        apply IH; [congruence | rewrite Hi', Hr', Hi; lia | lia].
      + destruct Hit as (_ & Hr' & Hexit).
        assert (Hmax : max_line (iterations st + 1)
                       = if Nat.eqb (requests (final e)) (Z.to_nat max_iterations)
                         then [MaxIterationsLine max_iterations] else []).
        { unfold max_line. rewrite Hr', Hi.
          destruct (Z.leb_spec max_iterations (Z.of_nat (requests st) + 1)),
            (Nat.eqb_spec (S (requests st)) (Z.to_nat max_iterations));
            try reflexivity; lia. }
        destruct (exit e); try contradiction.
        * destruct Hexit as (_ & m & Hout & Hret). exists m.
          now rewrite Hout, Ho.
        * destruct Hexit as (_ & Hout & Hret). now rewrite Hout, Ho, Hmax.
        * destruct Hexit as (_ & Hout & Hret). now rewrite Hout, Ho, Hmax.
        * destruct Hexit as (_ & Hout & Hret). now rewrite Hout, Ho, Hmax.
        * destruct Hexit as (_ & Hout & Hret). now rewrite Hout, Ho. }
  apply Hinv; [reflexivity | reflexivity | reflexivity].
Qed.

End WholeRun.

(** ** The confirmation prompt *)

Lemma confirm_action_step (desc line : string) (rest : list string) :
  confirm_action desc (line :: rest) =
  match answer line with
  | Some d => (Some d, rest)
  | None => confirm_action desc rest
  end.
Proof.
  cbn [confirm_action]. unfold answer.
  destruct (strip (lower line) =? "y"); [reflexivity|].
  destruct (strip (lower line) =? "n"); [reflexivity|].
  destruct (strip (lower line) =? "q"); reflexivity.
Qed.

(** X20. On ASCII lines [confirm_action] asks again until it is given an
    answer: the lines that are no answer are read and passed over, the
    first line that is one decides, and the lines after it are left
    unread. *)
Theorem confirm_action_first_answer
    (desc : string) (passed : list string) (line : string) (rest : list string)
    (d : decision) :
  Forall (fun l => ascii_only l = true) passed ->
  ascii_only line = true ->
  Forall (fun l => answer l = None) passed ->
  answer line = Some d ->
  confirm_action desc (passed ++ line :: rest) = (Some d, rest).
Proof.
  intros _ _ Hp Ha. induction Hp as [| l passed Hl _ IH]; cbn [app].
  - now rewrite confirm_action_step, Ha.
  - now rewrite confirm_action_step, Hl.
Qed.

(** X21. On ASCII lines, when the input ends before any answer was given,
    every line has been read and the end of the input is what comes out,
    and only then: no answer is made up. *)
Theorem confirm_action_no_answer (desc : string) (typed : list string) :
  Forall (fun l => ascii_only l = true) typed ->
  Forall (fun l => answer l = None) typed <->
  confirm_action desc typed = (None, []).
Proof.
  intros _. split.
  - intros Hp. induction Hp as [| l typed Hl _ IH]; [reflexivity|].
    now rewrite confirm_action_step, Hl.
  - induction typed as [| l typed IH]; [constructor|].
    rewrite confirm_action_step.
    destruct (answer l) as [d|] eqn:Hl; [discriminate|].
    intros Hrest. constructor; [exact Hl | now apply IH].
Qed.

Lemma lower_append (a b : string) : lower (a ++ b) = lower a ++ lower b.
Proof. induction a as [| c a IH]; cbn; [reflexivity | now rewrite IH]. Qed.

Lemma lower_char_space (c : ascii) :
  is_space c = true -> lower_char c = c /\ is_space (lower_char c) = true.
Proof.
  destruct c as [b0 b1 b2 b3 b4 b5 b6 b7].
  destruct b0, b1, b2, b3, b4, b5, b6, b7; cbn; intros Hs;
    first [discriminate Hs | now split].
Qed.

Lemma lower_blank (s : string) : blank s = true -> lower s = s.
Proof.
  induction s as [| c s IH]; [reflexivity|]. cbn [blank lower].
  intros Hb. apply andb_prop in Hb as [Hc Hs].
  destruct (lower_char_space c Hc) as [-> _]. now rewrite IH.
Qed.

Lemma lstrip_blank (a s : string) : blank a = true -> lstrip (a ++ s) = lstrip s.
Proof.
  induction a as [| c a IH]; [reflexivity|]. cbn [blank String.append lstrip].
  intros Hb. apply andb_prop in Hb as [-> Ha]. now apply IH.
Qed.

Lemma rstrip_blank (b : string) : blank b = true -> rstrip b = "".
Proof.
  induction b as [| c b IH]; [reflexivity|]. cbn [blank rstrip].
  intros Hb. apply andb_prop in Hb as [-> Hb']. now rewrite IH.
Qed.

Lemma strip_letter (c : ascii) (b : string) :
  is_space c = false -> blank b = true ->
  rstrip (lstrip (String c b)) = String c "".
Proof.
  intros Hc Hb. cbn [lstrip]. rewrite Hc. cbn [rstrip].
  now rewrite (rstrip_blank b Hb), Hc.
Qed.

Lemma is_space_ascii (c : ascii) :
  is_space c = true -> Nat.ltb (nat_of_ascii c) 128 = true.
Proof.
  destruct c as [b0 b1 b2 b3 b4 b5 b6 b7].
  destruct b0, b1, b2, b3, b4, b5, b6, b7; cbn; intros Hs;
    first [discriminate Hs | reflexivity].
Qed.

Lemma blank_ascii (s : string) : blank s = true -> ascii_only s = true.
Proof.
  induction s as [| c s IH]; [reflexivity|]. cbn [blank ascii_only].
  intros Hb. apply andb_prop in Hb as [Hc Hs].
  now rewrite (is_space_ascii c Hc), IH.
Qed.

Lemma ascii_only_append (a b : string) :
  ascii_only (a ++ b) = (ascii_only a && ascii_only b)%bool.
Proof.
  induction a as [| c a IH]; [reflexivity|]. cbn [String.append ascii_only].
  now rewrite IH, andb_assoc.
Qed.

(** X22. An answer is recognised whatever its case and whatever ASCII
    blanks (space, tab, line feed and the like) stand around it: y or Y is
    yes, n or N is no, q or Q is quit.  Such a line is an ASCII line, and
    typed at the prompt it decides at once. *)
Theorem answer_ignores_case_and_blanks
    (a b l : string) (d : decision) (desc : string) (rest : list string) :
  blank a = true ->
  blank b = true ->
  In (l, d) [("y", Execute); ("Y", Execute); ("n", Skip); ("N", Skip);
             ("q", Quit); ("Q", Quit)] ->
  ascii_only (a ++ l ++ b) = true /\
  answer (a ++ l ++ b) = Some d /\
  confirm_action desc ((a ++ l ++ b) :: rest) = (Some d, rest).
Proof.
  intros Ha Hb Hin.
  assert (Hans : answer (a ++ l ++ b) = Some d).
  { unfold answer, strip.
    rewrite !lower_append, (lower_blank a Ha), (lower_blank b Hb),
      (lstrip_blank _ _ Ha).
    cbn [In] in Hin.
    repeat (destruct Hin as [Heq | Hin];
            [injection Heq as <- <-;
             match goal with
             | |- context [lower ?s ++ b] =>
                 let v := eval vm_compute in (lower s) in
                 change (lower s) with v
             end;
             cbn [String.append];
             rewrite strip_letter; [reflexivity | reflexivity | exact Hb]|]).
    contradiction. }
  split; [|split; [exact Hans | now rewrite confirm_action_step, Hans]].
  rewrite !ascii_only_append, (blank_ascii a Ha), (blank_ascii b Hb).
  cbn [In] in Hin.
  repeat (destruct Hin as [Heq | Hin]; [injection Heq as <- <-; reflexivity|]).
  contradiction.
Qed.

(** ** The further properties at concrete inputs *)

Lemma in_bounds_click_reaches_device_witness :
  snd (execute steady_device 1920 1080 "double_click" (at_point 100 200) [])
  = ([] ++ [DoubleClick 100 200])%list /\
  (dev_do steady_device [] (DoubleClick 100 200) = None ->
   exists label,
     fst (execute steady_device 1920 1080 "double_click" (at_point 100 200) [])
     = Result (label ++ point 100 200)) /\
  (forall m, dev_do steady_device [] (DoubleClick 100 200) = Some m ->
   fst (execute steady_device 1920 1080 "double_click" (at_point 100 200) [])
   = Error ("Action '" ++ "double_click" ++ "' failed: " ++ m)).
Proof.
  apply (in_bounds_click_reaches_device steady_device 1920 1080 "double_click"
           (at_point 100 200) 100 200 (DoubleClick 100 200) []);
    reflexivity.
Defined.

Lemma missing_parameter_rejected_witness :
  exists m,
    execute steady_device 1920 1080 "type" no_params [] = (Error m, []) /\
    contains " required for " m = true.
Proof.
  apply (missing_parameter_rejected steady_device 1920 1080 "type" no_params []).
  reflexivity.
Defined.

Lemma wrong_arity_rejected_witness :
  exists m,
    execute steady_device 1920 1080 "left_click"
      (mk_params (Given [5]) Absent Absent Absent Absent None None) []
    = (Error ("Action '" ++ "left_click" ++ "' failed: " ++ m), []).
Proof.
  apply (wrong_arity_rejected steady_device 1920 1080 "left_click"
           (mk_params (Given [5]) Absent Absent Absent Absent None None) [5] []).
  - unfold point_actions. cbn [In]. tauto.
  - reflexivity.
  - discriminate.
  - discriminate.
Defined.

Lemma drag_lands_on_end_witness :
  exists dx dy,
    snd (execute steady_device 1920 1080 "left_click_drag"
           (mk_params (Given [300; 400]) (Given [10; 20]) Absent Absent Absent
              None None) [])
    = ([] ++ [MoveTo 10 20; Drag dx dy])%list /\
    (10 + dx = 300)%Z /\ (20 + dy = 400)%Z.
Proof.
  apply (drag_lands_on_end steady_device 1920 1080
           (mk_params (Given [300; 400]) (Given [10; 20]) Absent Absent Absent
              None None) 10 20 300 400 []);
    reflexivity.
Defined.

Lemma type_writes_all_reports_start_witness :
  snd (execute steady_device 1920 1080 "type"
         (mk_params Absent Absent (Given "hello") Absent Absent None None) [])
  = ([] ++ [Write "hello"])%list /\
  (dev_do steady_device [] (Write "hello") = None ->
   exists m,
     fst (execute steady_device 1920 1080 "type"
            (mk_params Absent Absent (Given "hello") Absent Absent None None) [])
     = Result m /\
     (String.length m <= 60)%nat /\
     ((String.length "hello" <= 50)%nat -> m = "Typed: " ++ "hello") /\
     ((50 < String.length "hello")%nat -> m = "Typed: " ++ take 50 "hello" ++ "...")).
Proof.
  apply (type_writes_all_reports_start steady_device 1920 1080
           (mk_params Absent Absent (Given "hello") Absent Absent None None)
           "hello" []).
  - reflexivity.
  - reflexivity.
Defined.

Lemma scroll_opposite_directions_witness :
  snd (execute steady_device 1920 1080 "scroll"
         (mk_params (Given [10; 20]) Absent Absent Absent (Given "down")
            (Some 5%Z) None) [])
  = snd (execute steady_device 1920 1080 "scroll"
           (mk_params (Given [10; 20]) Absent Absent Absent (Given "up")
              (Some (- 5)%Z) None) []) /\
  (dev_do steady_device [] (MoveTo 10 20) = None ->
   exists c,
     (c = Scroll (- 5)%Z \/ c = HScroll (- 5)%Z) /\
     snd (execute steady_device 1920 1080 "scroll"
            (mk_params (Given [10; 20]) Absent Absent Absent (Given "down")
               (Some 5%Z) None) [])
     = ([] ++ [MoveTo 10 20; c])%list).
Proof.
  apply (scroll_opposite_directions steady_device 1920 1080
           (mk_params (Given [10; 20]) Absent Absent Absent (Given "down")
              (Some 5%Z) None)
           (mk_params (Given [10; 20]) Absent Absent Absent (Given "up")
              (Some (- 5)%Z) None)
           10 20 5 []);
    try reflexivity.
  left. split; reflexivity.
Defined.

Lemma described_but_for_two_witness :
  (In "triple_click" known_actions /\
   describe_action "triple_click" (at_point 1 2)
   = Val ("Unknown action: " ++ "triple_click")) <->
  ("triple_click" = "middle_click" \/ "triple_click" = "triple_click").
Proof.
  apply (described_but_for_two "triple_click" (at_point 1 2)).
  reflexivity.
Defined.

Lemma describe_type_preview_witness :
  exists d,
    describe_action "type"
      (mk_params Absent Absent (Given "hello") Absent Absent None None)
    = Val d /\
    (String.length d <= 41)%nat /\
    ((String.length "hello" <= 30)%nat -> d = "Type: '" ++ "hello" ++ "'") /\
    ((30 < String.length "hello")%nat -> d = "Type: '" ++ take 30 "hello" ++ "...'").
Proof.
  apply (describe_type_preview
           (mk_params Absent Absent (Given "hello") Absent Absent None None)
           "hello").
  - reflexivity.
  - reflexivity.
Defined.

Lemma foreign_tools_reported_witness :
  nth_error
    [skipped "toolu_1";
     mk_tool_result "toolu_9" (TextContent "Unknown tool: bash") true;
     mk_tool_result "toolu_2" (ImageContent "image/jpeg" "/9j/") false]
    (List.length
       (request_ids [TextBlock "Listing the files."; click_request "toolu_1" 10 10]))
  = Some (mk_tool_result "toolu_9" (TextContent ("Unknown tool: " ++ "bash")) true).
Proof.
  apply (proj2 (foreign_tools_reported steady_device 1920 1080 (Some always_skip)
                  [TextBlock "Listing the files."; click_request "toolu_1" 10 10]
                  [screenshot_request "toolu_2"] "toolu_9" "bash"
                  (mk_input None no_params) ltac:(discriminate))
           fresh_world _
           (mk_world ["Left click at (10, 10)"] [Screencapture])).
  reflexivity.
Defined.

Lemma screenshots_bypass_confirmation_witness :
  let content := [screenshot_request "toolu_1"; screenshot_request "toolu_2"] in
  exists rs,
    _process_tool_calls steady_device 1920 1080 (Some (fun _ _ => Quit))
      content fresh_world
    = (Val rs,
       mk_world (asked fresh_world)
         (calls fresh_world ++ repeat Screencapture (List.length content))%list) /\
    map tool_use_id rs = request_ids content.
Proof.
  apply (screenshots_bypass_confirmation steady_device 1920 1080
           (Some (fun _ _ => Quit))
           [screenshot_request "toolu_1"; screenshot_request "toolu_2"]
           fresh_world).
  reflexivity.
Defined.

Lemma confirm_action_first_answer_witness :
  confirm_action "Left click at (1, 2)" (["maybe"; ""] ++ " Y " :: ["n"])
  = (Some Execute, ["n"]).
Proof.
  apply (confirm_action_first_answer "Left click at (1, 2)" ["maybe"; ""] " Y "
           ["n"] Execute).
  - repeat constructor.
  - reflexivity.
  - repeat constructor.
  - reflexivity.
Defined.

Lemma confirm_action_no_answer_witness :
  Forall (fun l => answer l = None) ["maybe"; "yes"; ""] <->
  confirm_action "Left click at (1, 2)" ["maybe"; "yes"; ""] = (None, []).
Proof.
  apply (confirm_action_no_answer "Left click at (1, 2)" ["maybe"; "yes"; ""]).
  repeat constructor.
Defined.

Lemma answer_ignores_case_and_blanks_witness :
  ascii_only ("  " ++ "Q" ++ " ") = true /\
  answer ("  " ++ "Q" ++ " ") = Some Quit /\
  confirm_action "Left click at (1, 2)" (("  " ++ "Q" ++ " ") :: ["y"])
  = (Some Quit, ["y"]).
Proof.
  apply (answer_ignores_case_and_blanks "  " " " "Q" Quit "Left click at (1, 2)" ["y"]).
  - reflexivity.
  - reflexivity.
  - cbn [In]. tauto.
Defined.

(** ** The orchestrator: what a run returns *)

Lemma spoken_app (ms1 ms2 : list message) :
  spoken (ms1 ++ ms2) = (spoken ms1 ++ spoken ms2)%list.
Proof.
  induction ms1 as [| m ms1 IH]; [reflexivity|].
  destruct m; cbn [app spoken]; rewrite IH; [reflexivity | | reflexivity].
  now rewrite app_assoc.
Qed.

Section Returned.

Variable dev : device.
Variables w h : Z.
Variable max_iterations : Z.
Variable confirm_callback : option callback.
Variable client : Z -> list message -> api_reply.

Local Abbreviation _process_tool_calls := (_process_tool_calls dev w h confirm_callback).
Local Abbreviation iteration := (iteration dev w h max_iterations confirm_callback client).
Local Abbreviation loop := (loop dev w h max_iterations confirm_callback client).
Local Abbreviation run := (run dev w h max_iterations confirm_callback client).

(** The text kept follows the responses recorded. *)
Lemma iteration_text (st : state) :
  final_response st = last_text (spoken (messages st)) "" ->
  match iteration st with
  | inl st' => final_response st' = last_text (spoken (messages st')) ""
  | inr e => final_response (final e) = last_text (spoken (messages (final e))) ""
  end.
Proof.
  intros Hinv. unfold Agent.iteration.
  destruct (client _ _) as [m | stop content]; [exact Hinv|].
  assert (Hnext : last_text content (final_response st)
                  = last_text (spoken (messages st ++ [AssistantTurn content])) "").
  { rewrite spoken_app, last_text_app, <- Hinv. cbn [spoken].
    now rewrite app_nil_r. }
  destruct (stop =? "end_turn"); [exact Hnext|].
  destruct (_process_tool_calls content (env st)) as [[[| r rs] | e] wd'].
  - exact Hnext.
  - cbn [final_response messages]. rewrite Hnext, !spoken_app. cbn [spoken].
    now rewrite !app_nil_r.
  - destruct e; exact Hnext.
Qed.

(** X23. The text a run keeps, and returns at every exit but a failure of
    the transport or an escaping exception, is the last text block of the
    whole conversation: that of an earlier response when the later ones
    hold no text, and the empty string when the model wrote none. *)
Theorem kept_text_is_last_of_conversation (task : string) (wd : world) :
  final_response (final (run task wd))
  = last_text (spoken (messages (final (run task wd)))) "".
Proof.
  unfold Agent.run.
  assert (Hinv : forall n st,
             final_response st = last_text (spoken (messages st)) "" ->
             final_response (final (loop n st))
             = last_text (spoken (messages (final (loop n st)))) "").
  { induction n as [| n IH]; intros st Hst; [exact Hst|].
    cbn [Agent.loop]. pose proof (iteration_text st Hst) as Hit.
    destruct (iteration st) as [st' | e]; [now apply IH | exact Hit]. }
  now apply Hinv.
Qed.

(** X24. A response that ends the turn ends the run there: its tool uses,
    if it holds any, are not processed, so nobody is asked and no device
    call is made; the response is recorded and its last text returned. *)
Theorem end_turn_runs_no_tool (st : state) (remaining : nat) (content : list block) :
  client (iterations st + 1)%Z (messages st) = ApiResponse "end_turn" content ->
  exit (loop (S remaining) st) = EndTurn /\
  env (final (loop (S remaining) st)) = env st /\
  messages (final (loop (S remaining) st))
  = (messages st ++ [AssistantTurn content])%list /\
  returned (loop (S remaining) st)
  = Some (last_text content (final_response st)).
Proof.
  intros Hreply. cbn [Agent.loop]. unfold Agent.iteration. rewrite Hreply.
  cbn [String.eqb Ascii.eqb Bool.eqb]. repeat split.
Qed.

(** X25. With a budget of zero or less a run makes no request, asks
    nobody and calls no device: it returns the empty string, leaves the
    task alone in the conversation, and still prints the line for the
    reached maximum. *)
Theorem empty_budget_does_nothing (task : string) (wd : world) :
  (max_iterations <= 0)%Z ->
  run task wd
  = mk_ending LoopEnded (Some "")
      (mk_state [UserTask task] 0 "" 0 [MaxIterationsLine max_iterations] wd).
Proof.
  intros Hmax. unfold Agent.run.
  replace (Z.to_nat max_iterations) with O by lia.
  cbn [Agent.loop]. unfold after_loop.
  cbn [iterations stdout messages final_response requests env app].
  destruct (Z.leb_spec max_iterations 0); [reflexivity | lia].
Qed.

End Returned.

Lemma end_turn_runs_no_tool_witness :
  let content := [TextBlock "Done."; click_request "toolu_1" 10 10] in
  let client := fun (_ : Z) (_ : list message) => ApiResponse "end_turn" content in
  let e := loop steady_device 1920 1080 10 None client 10 (start_state "finish") in
  exit e = EndTurn /\
  env (final e) = env (start_state "finish") /\
  messages (final e) = (messages (start_state "finish") ++ [AssistantTurn content])%list /\
  returned e = Some (last_text content (final_response (start_state "finish"))).
Proof.
  apply (end_turn_runs_no_tool steady_device 1920 1080 10 None
           (fun _ _ => ApiResponse "end_turn"
                         [TextBlock "Done."; click_request "toolu_1" 10 10])
           (start_state "finish") 9
           [TextBlock "Done."; click_request "toolu_1" 10 10]).
  reflexivity.
Defined.

Lemma empty_budget_does_nothing_witness :
  run steady_device 1920 1080 0 None batch_client "click three times" fresh_world
  = mk_ending LoopEnded (Some "")
      (mk_state [UserTask "click three times"] 0 "" 0 [MaxIterationsLine 0]
         fresh_world).
Proof.
  apply (empty_budget_does_nothing steady_device 1920 1080 0 None batch_client
           "click three times" fresh_world).
  discriminate.
Defined.
